(** * Review scheduling engine of kw_webapp: [UserSpecific] in models.py

    A shallow embedding of the scheduling methods of the [UserSpecific]
    model (kw_webapp/models.py) and the properties of the review engine
    checked against them.

    Modelling choices.
    - Python integers are [Z].  The counters and the streak are
      [PositiveIntegerField]s; the in-memory values are plain Python
      integers, so non-negativity appears as a hypothesis where a property
      needs it.
    - An aware [datetime] is the number of microseconds of wall-clock time
      since [datetime.min] in its own (fixed) time zone; a [timedelta] is a
      number of microseconds.  The range limit of [datetime] (year 9999) is
      not modelled.
    - [timezone.now()] is an explicit argument, one per call in the source.
    - Methods mutate [self] and may raise: they are computations in a small
      state-and-exception monad whose state is the in-memory instance
      together with its database row; [self.save()] copies the former onto
      the latter.
    - kw_webapp/constants.py is not part of the sources at hand.  Its
      constants used by the engine are the fields of [Constants], and every
      definition and theorem is parametric in them.
    - Fields of [UserSpecific] that no scheduling method touches
      (vocabulary, user, hidden, wanikani_*, notes) are left out, as is
      logging. *)

From Stdlib Require Import ZArith QArith Lia Bool String Ascii.
From stdpp Require Import base option gmap.

Local Open Scope Z_scope.

(** ** Time *)

Module Time.

Definition datetime := Z.
Definition timedelta := Z.

Definition MICROS : Z := 1000000.
Definition DAY_SECONDS : Z := 86400.

(** [timedelta(hours=h)] *)
Definition hours (h : Z) : timedelta := h * 3600 * MICROS.

(** [timedelta(0, s, 0)] for a whole number of seconds [s] *)
Definition of_seconds (s : Z) : timedelta := s * MICROS.

(** [(d - d.min.replace(tzinfo=d.tzinfo)).seconds]: the seconds field of
    the normalised difference to [datetime.min], that is the whole
    seconds elapsed since local midnight (0..86399). *)
Definition seconds_since_midnight (d : datetime) : Z :=
  (d / MICROS) mod DAY_SECONDS.

(** The sub-second part of a timestamp. *)
Definition microsecond (d : datetime) : Z := d mod MICROS.

End Time.
Import Time.

(** ** Constants, exceptions, records *)

(** The constants of kw_webapp/constants.py read by the engine.
    [REVIEW_ROUNDING_TIME] is a [timedelta] of whole seconds, held as the
    value of its [total_seconds()].  [CRITICALITY_THRESHOLD] is a float
    literal, held as the rational it denotes; the quotient it is compared
    with is likewise exact (see [_breaks_threshold]). *)
Record Constants := {
  SRS_TIMES : gmap Z Z;                        (* streak -> hours *)
  BURNED_STREAK : Z;                           (* WANIKANI_SRS_LEVELS[WkSrsLevel.BURNED.name][0] *)
  MINIMUM_ATTEMPT_COUNT_FOR_CRITICALITY : Z;
  CRITICALITY_THRESHOLD : Q;
  REVIEW_ROUNDING_TIME : Z                     (* seconds *)
}.

Inductive exception :=
  | ZeroDivisionError
  | TypeError
  | AttributeError
  | KeyError.

Inductive result (A : Type) :=
  | Ok (a : A)
  | Raise (e : exception).
Arguments Ok {A} a.
Arguments Raise {A} e.

Record UserSpecific := {
  correct : Z;
  incorrect : Z;
  streak : Z;
  last_studied : option datetime;
  needs_review : bool;
  unlock_date : datetime;
  next_review_date : option datetime;
  burned : bool;
  critical : bool
}.

(** Field defaults of the model class: the record as created at time [now]. *)
Definition create (now : datetime) : UserSpecific :=
  {| correct := 0; incorrect := 0; streak := 0; last_studied := None;
     needs_review := true; unlock_date := now; next_review_date := Some now;
     burned := false; critical := false |}.

(** Attribute assignment, one setter per field that the engine writes. *)
Definition set_correct (v : Z) (r : UserSpecific) : UserSpecific :=
  {| correct := v; incorrect := incorrect r; streak := streak r;
     last_studied := last_studied r; needs_review := needs_review r;
     unlock_date := unlock_date r; next_review_date := next_review_date r;
     burned := burned r; critical := critical r |}.

Definition set_incorrect (v : Z) (r : UserSpecific) : UserSpecific :=
  {| correct := correct r; incorrect := v; streak := streak r;
     last_studied := last_studied r; needs_review := needs_review r;
     unlock_date := unlock_date r; next_review_date := next_review_date r;
     burned := burned r; critical := critical r |}.

Definition set_streak (v : Z) (r : UserSpecific) : UserSpecific :=
  {| correct := correct r; incorrect := incorrect r; streak := v;
     last_studied := last_studied r; needs_review := needs_review r;
     unlock_date := unlock_date r; next_review_date := next_review_date r;
     burned := burned r; critical := critical r |}.

Definition set_last_studied (v : option datetime) (r : UserSpecific) : UserSpecific :=
  {| correct := correct r; incorrect := incorrect r; streak := streak r;
     last_studied := v; needs_review := needs_review r;
     unlock_date := unlock_date r; next_review_date := next_review_date r;
     burned := burned r; critical := critical r |}.

Definition set_needs_review (v : bool) (r : UserSpecific) : UserSpecific :=
  {| correct := correct r; incorrect := incorrect r; streak := streak r;
     last_studied := last_studied r; needs_review := v;
     unlock_date := unlock_date r; next_review_date := next_review_date r;
     burned := burned r; critical := critical r |}.

Definition set_next_review_date (v : option datetime) (r : UserSpecific) : UserSpecific :=
  {| correct := correct r; incorrect := incorrect r; streak := streak r;
     last_studied := last_studied r; needs_review := needs_review r;
     unlock_date := unlock_date r; next_review_date := v;
     burned := burned r; critical := critical r |}.

Definition set_burned (v : bool) (r : UserSpecific) : UserSpecific :=
  {| correct := correct r; incorrect := incorrect r; streak := streak r;
     last_studied := last_studied r; needs_review := needs_review r;
     unlock_date := unlock_date r; next_review_date := next_review_date r;
     burned := v; critical := critical r |}.

Definition set_critical (v : bool) (r : UserSpecific) : UserSpecific :=
  {| correct := correct r; incorrect := incorrect r; streak := streak r;
     last_studied := last_studied r; needs_review := needs_review r;
     unlock_date := unlock_date r; next_review_date := next_review_date r;
     burned := burned r; critical := v |}.

(** ** The method monad *)

(** The instance a method runs on ([self]) and the row it was loaded from. *)
Record Store := {
  obj : UserSpecific;
  row : UserSpecific
}.

Definition M (A : Type) : Type := Store -> result (A * Store).

Definition ret {A} (a : A) : M A := fun s => Ok (a, s).

Definition bind {A B} (m : M A) (k : A -> M B) : M B :=
  fun s => match m s with
           | Ok (a, s') => k a s'
           | Raise e => Raise e
           end.

Definition raise {A} (e : exception) : M A := fun _ => Raise e.

Definition self : M UserSpecific := fun s => Ok (obj s, s).

Definition assign (f : UserSpecific -> UserSpecific) : M unit :=
  fun s => Ok (tt, {| obj := f (obj s); row := row s |}).

(** [self.save()] *)
Definition save : M unit :=
  fun s => Ok (tt, {| obj := obj s; row := obj s |}).

Declare Scope method_scope.
Delimit Scope method_scope with method.
Notation "x <- m ;; k" := (bind m (fun x => k))
  (at level 100, m at next level, right associativity) : method_scope.
Notation "m ;; k" := (bind m (fun _ => k))
  (at level 100, right associativity) : method_scope.
Local Open Scope method_scope.

(** Run a method on an instance freshly loaded from its row. *)
Definition load (r : UserSpecific) : Store := {| obj := r; row := r |}.

(** The instance after the call, or the exception the call raised. *)
Definition call {A} (m : M A) (r : UserSpecific) : result UserSpecific :=
  match m (load r) with
  | Ok (_, s) => Ok (obj s)
  | Raise e => Raise e
  end.

(** The database row after the call. *)
Definition stored {A} (m : M A) (r : UserSpecific) : result UserSpecific :=
  match m (load r) with
  | Ok (_, s) => Ok (row s)
  | Raise e => Raise e
  end.

(** ** The scheduling methods *)

Section Engine.

Variable constants : Constants.

(** The shared body of [_round_next_review_date],
    [_round_last_studied_date] and [_round_last_studied_up]:
<<
    round_to = constants.REVIEW_ROUNDING_TIME.total_seconds()
    seconds = (d - d.min.replace(tzinfo=d.tzinfo)).seconds
    rounding = (seconds + round_to) // round_to * round_to
    d = d + timedelta(0, rounding - seconds, 0)
>>
    Floor division by a zero [round_to] raises [ZeroDivisionError]. *)
Definition round_up (d : datetime) : datetime :=
  let round_to := REVIEW_ROUNDING_TIME constants in
  let seconds := seconds_since_midnight d in
  let rounding := (seconds + round_to) / round_to * round_to in
  d + of_seconds (rounding - seconds).

Definition rounded (d : option datetime) : M datetime :=
  match d with
  | None => raise AttributeError
  | Some t =>
      if REVIEW_ROUNDING_TIME constants =? 0 then raise ZeroDivisionError
      else ret (round_up t)
  end.

Definition _round_next_review_date : M unit :=
  r <- self ;;
  t <- rounded (next_review_date r) ;;
  assign (set_next_review_date (Some t)) ;;
  save.

Definition _round_last_studied_date : M unit :=
  r <- self ;;
  t <- rounded (last_studied r) ;;
  assign (set_last_studied (Some t)) ;;
  save.

Definition _round_last_studied_up : M unit :=
  r <- self ;;
  t <- rounded (last_studied r) ;;
  assign (set_last_studied (Some t)) ;;
  save.

Definition _round_review_time_up : M unit :=
  _round_next_review_date ;;
  _round_last_studied_date.

Definition round_times : M unit :=
  r <- self ;;
  match SRS_TIMES constants !! streak r with
  | Some _ => _round_review_time_up ;; _round_last_studied_up
  | None => ret tt
  end.

Definition _can_be_critical (r : UserSpecific) : bool :=
  MINIMUM_ATTEMPT_COUNT_FOR_CRITICALITY constants <=? correct r + incorrect r.

(** [float(self.incorrect) / float(self.correct + self.incorrect) >=
    constants.CRITICALITY_THRESHOLD], with the quotient taken exactly. *)
Definition _breaks_threshold (r : UserSpecific) : result bool :=
  if correct r + incorrect r =? 0 then Raise ZeroDivisionError
  else Ok (Qle_bool (CRITICALITY_THRESHOLD constants)
                    (inject_Z (incorrect r) / inject_Z (correct r + incorrect r))).

(** [and] evaluates its right operand only when the left one holds. *)
Definition is_critical : M bool :=
  r <- self ;;
  if _can_be_critical r then
    match _breaks_threshold r with
    | Ok true => ret true
    | Ok false => ret false
    | Raise e => raise e
    end
  else ret false.

Definition set_criticality : M unit :=
  c <- is_critical ;;
  if (c : bool) then assign (set_critical true) else assign (set_critical false).

Definition set_next_review_time (now : datetime) : M unit :=
  r <- self ;;
  match SRS_TIMES constants !! streak r with
  | None => assign (set_next_review_date None)
  | Some h =>
      assign (set_next_review_date (Some (now + hours h))) ;;
      _round_next_review_date
  end ;;
  save.

Definition set_next_review_time_based_on_last_studied : M unit :=
  r <- self ;;
  match SRS_TIMES constants !! streak r with
  | None => raise KeyError
  | Some h =>
      match last_studied r with
      | None => raise TypeError
      | Some ls =>
          assign (set_next_review_date (Some (ls + hours h))) ;;
          _round_review_time_up ;;
          save
      end
  end.

(** [now_studied] is the clock read for [last_studied], [now_scheduled]
    the later one inside [set_next_review_time]. *)
Definition answered_correctly (now_studied now_scheduled : datetime)
    (first_try : bool) : M UserSpecific :=
  r <- self ;;
  (if streak r =? 0 then assign (set_streak (streak r + 1))
   else if first_try then
     assign (set_correct (correct r + 1)) ;;
     assign (set_streak (streak r + 1)) ;;
     (if BURNED_STREAK constants <=? streak r + 1
      then assign (set_burned true) else ret tt)
   else ret tt) ;;
  assign (set_needs_review false) ;;
  assign (set_last_studied (Some now_studied)) ;;
  set_next_review_time now_scheduled ;;
  set_criticality ;;
  save ;;
  self.

Definition answered_incorrectly : M UserSpecific :=
  r <- self ;;
  assign (set_incorrect (incorrect r + 1)) ;;
  (if streak r =? 7 then assign (set_streak (streak r - 2))
   else if 1 <? streak r then assign (set_streak (streak r - 1))
   else ret tt) ;;
  r1 <- self ;;
  assign (set_streak (Z.max 0 (streak r1))) ;;
  save ;;
  set_criticality ;;
  self.

Definition bring_review_out_of_vacation (vacation_duration : timedelta) : M unit :=
  r <- self ;;
  match last_studied r with
  | None => raise TypeError
  | Some ls =>
      assign (set_last_studied (Some (ls + vacation_duration))) ;;
      match SRS_TIMES constants !! streak r with
      | Some h =>
          assign (set_next_review_date (Some (ls + vacation_duration + hours h))) ;;
          round_times
      | None => assign (set_next_review_date None)
      end ;;
      save
  end.

Definition reset (now : datetime) : M unit :=
  assign (set_streak 1) ;;
  assign (set_last_studied None) ;;
  assign (set_next_review_date (Some now)) ;;
  assign (set_correct 1) ;;
  assign (set_incorrect 0) ;;
  assign (set_burned false) ;;
  assign (set_needs_review true) ;;
  save.

End Engine.

(** ** An example configuration *)

(** Modelled from the spec: kw_webapp/constants.py is missing; this is a
    configuration of the shape the specification describes, used to run the
    engine on concrete records.  The interval table has entries for the
    stages 1 to 7 with delays growing with the streak, the burn stage is 8
    and has no entry (the "8-stage burn threshold example"), the criticality
    threshold is 0.8 after at least 5 attempts, and the rounding
    granularity is one hour. *)
Definition example_constants : Constants :=
  {| SRS_TIMES := list_to_map [(1, 4); (2, 8); (3, 24); (4, 72); (5, 168); (6, 336); (7, 720)];
     BURNED_STREAK := 8;
     MINIMUM_ATTEMPT_COUNT_FOR_CRITICALITY := 5;
     CRITICALITY_THRESHOLD := (8 # 10)%Q;
     REVIEW_ROUNDING_TIME := 3600 |}.

(** A record in review: streak 3, four right and one wrong, studied at
    10:20:30.5 on day 0 and due at 11:00 on day 1. *)
Definition sample_review : UserSpecific :=
  {| correct := 4; incorrect := 1; streak := 3;
     last_studied := Some 37230500000; needs_review := false;
     unlock_date := 0; next_review_date := Some 126000000000;
     burned := false; critical := false |}.

(** A burned record as [answered_correctly] leaves it under
    [example_constants]. *)
Definition sample_burned : UserSpecific :=
  {| correct := 7; incorrect := 0; streak := 8;
     last_studied := Some 37230500000; needs_review := false;
     unlock_date := 0; next_review_date := None;
     burned := true; critical := false |}.

(** ** Properties that a configuration may have *)

(** No stage from the burn stage on has an entry in the interval table. *)
Definition burn_stage_unscheduled (c : Constants) : Prop :=
  forall k : Z, BURNED_STREAK c <= k -> SRS_TIMES c !! k = None.

(** The rounding granularity is positive and divides the day. *)
Definition granularity_divides_day (c : Constants) : Prop :=
  0 < REVIEW_ROUNDING_TIME c /\ (REVIEW_ROUNDING_TIME c | DAY_SECONDS).

(** ** The criticality test as a boolean *)

Definition error_rate_critical (c : Constants) (r : UserSpecific) : bool :=
  _can_be_critical c r &&
  Qle_bool (CRITICALITY_THRESHOLD c)
           (inject_Z (incorrect r) / inject_Z (correct r + incorrect r)).

(** What the specification asks of the flag of a record. *)
Definition critical_as_specified (c : Constants) (r : UserSpecific) : Prop :=
  critical r = true <->
  MINIMUM_ATTEMPT_COUNT_FOR_CRITICALITY c <= correct r + incorrect r /\
  (CRITICALITY_THRESHOLD c <=
   inject_Z (incorrect r) / inject_Z (correct r + incorrect r))%Q.

(** ** What the methods leave behind *)

Section Outcomes.

Variable c : Constants.

(** The streak that [answered_incorrectly] leaves. *)
Definition streak_after_incorrect (n : Z) : Z :=
  Z.max 0 (if n =? 7 then n - 2 else if 1 <? n then n - 1 else n).

(** The instance that [answered_incorrectly] leaves, criticality aside. *)
Definition graded_incorrect (r : UserSpecific) : UserSpecific :=
  set_streak (streak_after_incorrect (streak r)) (set_incorrect (incorrect r + 1) r).

(** The instance of [answered_correctly] when it reaches the call of
    [set_next_review_time]. *)
Definition graded_correct (now : datetime) (first_try : bool)
    (r : UserSpecific) : UserSpecific :=
  let r1 :=
    if streak r =? 0 then set_streak (streak r + 1) r
    else if first_try then
      let r' := set_streak (streak r + 1) (set_correct (correct r + 1) r) in
      if BURNED_STREAK c <=? streak r + 1 then set_burned true r' else r'
    else r in
  set_last_studied (Some now) (set_needs_review false r1).

(** The instance that [set_next_review_time] leaves. *)
Definition scheduled (now : datetime) (r : UserSpecific) : UserSpecific :=
  match SRS_TIMES c !! streak r with
  | None => set_next_review_date None r
  | Some h => set_next_review_date (Some (round_up c (now + hours h))) r
  end.

(** The instance that [bring_review_out_of_vacation] leaves when
    [last_studied] is [ls]. *)
Definition shifted (ls : datetime) (vacation_duration : timedelta)
    (r : UserSpecific) : UserSpecific :=
  match SRS_TIMES c !! streak r with
  | Some h =>
      set_last_studied (Some (round_up c (round_up c (ls + vacation_duration))))
        (set_next_review_date (Some (round_up c (ls + vacation_duration + hours h))) r)
  | None =>
      set_next_review_date None (set_last_studied (Some (ls + vacation_duration)) r)
  end.

End Outcomes.

(** ** Replaying grading events *)

Inductive event :=
  | AnsweredCorrectly (now_studied now_scheduled : datetime) (first_try : bool)
  | AnsweredIncorrectly
  | Reset (now : datetime)
  | OutOfVacation (vacation_duration : timedelta).

Definition apply (c : Constants) (e : event) (r : UserSpecific) : result UserSpecific :=
  match e with
  | AnsweredCorrectly n1 n2 first_try => call (answered_correctly c n1 n2 first_try) r
  | AnsweredIncorrectly => call (answered_incorrectly c) r
  | Reset now => call (reset now) r
  | OutOfVacation d => call (bring_review_out_of_vacation c d) r
  end.

Fixpoint replay (c : Constants) (es : list event) (r : UserSpecific) : result UserSpecific :=
  match es with
  | [] => Ok r
  | e :: es' =>
      match apply c e r with
      | Ok r' => replay c es' r'
      | Raise x => Raise x
      end
  end.

(** The invariant of burned records. *)
Definition burned_invariant (r : UserSpecific) : Prop :=
  burned r = true -> next_review_date r = None /\ needs_review r = false.

(** The events that a caller which checks [burned] first sends: it never
    grades a burned record as correct and never shifts one. *)
Definition admissible (e : event) (r : UserSpecific) : Prop :=
  match e with
  | AnsweredCorrectly _ _ _ | OutOfVacation _ => burned r = false
  | AnsweredIncorrectly | Reset _ => True
  end.

Inductive reachable (c : Constants) : UserSpecific -> Prop :=
  | reachable_created (now : datetime) : reachable c (create now)
  | reachable_step (r r' : UserSpecific) (e : event) :
      reachable c r -> admissible e r -> apply c e r = Ok r' -> reachable c r'.

(** Eight first-try answers burn a fresh record under [example_constants];
    a wrong answer then takes the streak from 8 back to 7, and a correct
    answer after a retry schedules the still burned record again. *)
Definition regrading_trace : list event :=
  [AnsweredCorrectly 10 11 true; AnsweredCorrectly 20 21 true;
   AnsweredCorrectly 30 31 true; AnsweredCorrectly 40 41 true;
   AnsweredCorrectly 50 51 true; AnsweredCorrectly 60 61 true;
   AnsweredCorrectly 70 71 true; AnsweredCorrectly 80 81 true;
   AnsweredIncorrectly; AnsweredCorrectly 100 101 false].

(** A record in review whose streak has no entry under
    [example_constants] and that is not burned. *)
Definition sample_corrupt : UserSpecific := set_streak 9 sample_review.

(** One day, in microseconds. *)
Definition one_day : timedelta := hours 24.

(** ** Boundaries of the rounding *)

(** The time elapsed since local midnight, in microseconds. *)
Definition elapsed_since_midnight (d : datetime) : timedelta :=
  d mod (DAY_SECONDS * MICROS).

(** The timestamp lies exactly on a boundary of the rounding granularity,
    measured from local midnight of its own day. *)
Definition on_boundary (c : Constants) (d : datetime) : Prop :=
  elapsed_since_midnight d mod of_seconds (REVIEW_ROUNDING_TIME c) = 0.

(** ** Degenerate configurations *)

(** [example_constants] with a minimum attempt count of 0. *)
Definition constants_without_minimum : Constants :=
  {| SRS_TIMES := SRS_TIMES example_constants;
     BURNED_STREAK := BURNED_STREAK example_constants;
     MINIMUM_ATTEMPT_COUNT_FOR_CRITICALITY := 0;
     CRITICALITY_THRESHOLD := CRITICALITY_THRESHOLD example_constants;
     REVIEW_ROUNDING_TIME := REVIEW_ROUNDING_TIME example_constants |}.

(** [example_constants] with a rounding time of zero seconds. *)
Definition constants_without_rounding : Constants :=
  {| SRS_TIMES := SRS_TIMES example_constants;
     BURNED_STREAK := BURNED_STREAK example_constants;
     MINIMUM_ATTEMPT_COUNT_FOR_CRITICALITY :=
       MINIMUM_ATTEMPT_COUNT_FOR_CRITICALITY example_constants;
     CRITICALITY_THRESHOLD := CRITICALITY_THRESHOLD example_constants;
     REVIEW_ROUNDING_TIME := 0 |}.

(** A record that was critical when it was last graded: one right answer
    and nine wrong ones. *)
Definition sample_critical : UserSpecific :=
  {| correct := 1; incorrect := 9; streak := 1;
     last_studied := Some 37230500000; needs_review := true;
     unlock_date := 0; next_review_date := Some 54000000000;
     burned := false; critical := true |}.

(** ** Counting events *)

(** The events of a trace that are wrong answers. *)
Fixpoint wrong_answers (es : list event) : Z :=
  match es with
  | [] => 0
  | AnsweredIncorrectly :: es' => 1 + wrong_answers es'
  | _ :: es' => wrong_answers es'
  end.

(** The events of a trace that are correct answers. *)
Fixpoint right_answers (es : list event) : Z :=
  match es with
  | [] => 0
  | AnsweredCorrectly _ _ _ :: es' => 1 + right_answers es'
  | _ :: es' => right_answers es'
  end.

(** A trace without [reset]. *)
Fixpoint without_reset (es : list event) : bool :=
  match es with
  | [] => true
  | Reset _ :: _ => false
  | _ :: es' => without_reset es'
  end.

(** A trace of first-try correct answers only. *)
Fixpoint all_first_try (es : list event) : bool :=
  match es with
  | [] => true
  | AnsweredCorrectly _ _ true :: es' => all_first_try es'
  | _ :: _ => false
  end.

(** ** The profile *)

(** The two setters of [Profile] that normalise what they store.  The
    regular expressions [TWITTER_USERNAME_REGEX] and [HTTP_S_REGEX] are
    constants of kw_webapp/constants.py; the first is taken as the
    predicate "[TWITTER_USERNAME_REGEX.match(s)] is not [None]", the second
    as the function [HTTP_S_REGEX.sub("", s)].  Only the fields the two
    setters write are kept; the warning that [set_twitter_account] logs is
    left out. *)
Module Profile.

Record t := {
  twitter : option string;
  website : option string
}.

(** The instance and its database row. *)
Record Store := {
  obj : t;
  row : t
}.

Definition save (s : Store) : Store := {| obj := obj s; row := obj s |}.

Definition set_twitter (v : option string) (s : Store) : Store :=
  {| obj := {| twitter := v; website := website (obj s) |}; row := row s |}.

Definition set_website_field (v : option string) (s : Store) : Store :=
  {| obj := {| twitter := twitter (obj s); website := v |}; row := row s |}.

(** [s.startswith("@")] *)
Definition startswith_at (s : string) : bool :=
  match s with
  | String a _ => Ascii.eqb a "@"%char
  | EmptyString => false
  end.

(** [s[1:]] *)
Definition tail (s : string) : string :=
  match s with
  | String _ s' => s'
  | EmptyString => EmptyString
  end.

(** The truth value of an optional string: [None] and [""] are false. *)
Definition truthy (s : option string) : bool :=
  match s with
  | Some (String _ _) => true
  | _ => false
  end.

Section Setters.

Variable TWITTER_USERNAME_REGEX_match : string -> bool.
Variable HTTP_S_REGEX_sub : string -> string.

Definition set_twitter_account (twitter_account : option string) (s : Store) : Store :=
  match twitter_account with
  | Some (String a rest) =>
      let account := String a rest in
      save
        (if startswith_at account && TWITTER_USERNAME_REGEX_match (tail account)
         then set_twitter (Some account) s
         else if TWITTER_USERNAME_REGEX_match account
         then set_twitter (Some (String "@" account)) s
         else s)
  | _ => s
  end.

Definition set_website (website_url : option string) (s : Store) : Store :=
  match website_url with
  | Some (String a rest) =>
      match HTTP_S_REGEX_sub (String a rest) with
      | String b fixed => save (set_website_field (Some (String b fixed)) s)
      | EmptyString => s
      end
  | _ => s
  end.

End Setters.

End Profile.

(** ** Basic facts about the methods *)

Section Facts.

Variable c : Constants.

Hypothesis attempts_positive : 1 <= MINIMUM_ATTEMPT_COUNT_FOR_CRITICALITY c.

Lemma is_critical_ok (s : Store) :
  is_critical c s = Ok (error_rate_critical c (obj s), s).
Proof.
  unfold is_critical, error_rate_critical, _breaks_threshold, bind, self, ret, raise.
  destruct (_can_be_critical c (obj s)) eqn:E; cbn [andb]; [|reflexivity].
  unfold _can_be_critical in E. apply Z.leb_le in E.
  destruct (Z.eqb_spec (correct (obj s) + incorrect (obj s)) 0) as [H0|H0]; [lia|].
  now destruct (Qle_bool _ _).
Qed.

Lemma set_criticality_ok (s : Store) :
  set_criticality c s =
  Ok (tt, {| obj := set_critical (error_rate_critical c (obj s)) (obj s); row := row s |}).
Proof.
  unfold set_criticality, bind. rewrite is_critical_ok.
  now destruct (error_rate_critical c (obj s)).
Qed.

Lemma answered_incorrectly_run (r : UserSpecific) :
  answered_incorrectly c (load r) =
  Ok (set_critical (error_rate_critical c (graded_incorrect r)) (graded_incorrect r),
      {| obj := set_critical (error_rate_critical c (graded_incorrect r)) (graded_incorrect r);
         row := graded_incorrect r |}).
Proof.
  unfold answered_incorrectly, bind, self, assign, save, ret, load; cbn [obj row].
  unfold graded_incorrect, streak_after_incorrect.
  destruct (streak r =? 7); [|destruct (1 <? streak r)]; cbn [obj row];
    rewrite set_criticality_ok; reflexivity.
Qed.

Lemma answered_incorrectly_call (r : UserSpecific) :
  call (answered_incorrectly c) r =
  Ok (set_critical (error_rate_critical c (graded_incorrect r)) (graded_incorrect r)).
Proof. unfold call. now rewrite answered_incorrectly_run. Qed.

End Facts.

Section Scheduling.

Variable c : Constants.

Hypothesis attempts_positive : 1 <= MINIMUM_ATTEMPT_COUNT_FOR_CRITICALITY c.
Hypothesis granularity_nonzero : REVIEW_ROUNDING_TIME c <> 0.

Lemma rounded_ok (t : datetime) (s : Store) :
  rounded c (Some t) s = Ok (round_up c t, s).
Proof.
  unfold rounded. destruct (Z.eqb_spec (REVIEW_ROUNDING_TIME c) 0); [contradiction|reflexivity].
Qed.

Lemma set_next_review_time_run (now : datetime) (s : Store) :
  set_next_review_time c now s =
  Ok (tt, {| obj := scheduled c now (obj s); row := scheduled c now (obj s) |}).
Proof.
  unfold set_next_review_time, scheduled, bind, self.
  destruct (SRS_TIMES c !! streak (obj s)) as [h|]; [|reflexivity].
  unfold _round_next_review_date, bind, self, assign, save; cbn [obj row next_review_date set_next_review_date].
  rewrite rounded_ok. reflexivity.
Qed.

Lemma answered_correctly_call (now_studied now_scheduled : datetime)
    (first_try : bool) (r : UserSpecific) :
  let r2 := scheduled c now_scheduled (graded_correct c now_studied first_try r) in
  call (answered_correctly c now_studied now_scheduled first_try) r =
  Ok (set_critical (error_rate_critical c r2) r2).
Proof.
  unfold call, answered_correctly, graded_correct, bind, self, assign, save, ret, load;
    cbn [obj row].
  destruct (streak r =? 0); [|destruct first_try; [destruct (BURNED_STREAK c <=? streak r + 1)|]];
    cbn [obj row]; rewrite set_next_review_time_run, set_criticality_ok by assumption;
    reflexivity.
Qed.

Lemma answered_correctly_stored (now_studied now_scheduled : datetime)
    (first_try : bool) (r : UserSpecific) :
  stored (answered_correctly c now_studied now_scheduled first_try) r =
  call (answered_correctly c now_studied now_scheduled first_try) r.
Proof.
  unfold stored, call, answered_correctly, bind, self, assign, save, ret, load;
    cbn [obj row].
  destruct (streak r =? 0); [|destruct first_try; [destruct (BURNED_STREAK c <=? streak r + 1)|]];
    cbn [obj row]; rewrite set_next_review_time_run, set_criticality_ok by assumption;
    reflexivity.
Qed.

Lemma bring_review_out_of_vacation_call (vacation_duration : timedelta)
    (r : UserSpecific) (ls : datetime) :
  last_studied r = Some ls ->
  call (bring_review_out_of_vacation c vacation_duration) r =
  Ok (shifted c ls vacation_duration r).
Proof.
  intros Hls.
  unfold call, bring_review_out_of_vacation, shifted, bind, self, load; cbn [obj row].
  rewrite Hls. unfold assign at 1; cbn [obj row].
  destruct (SRS_TIMES c !! streak r) as [h|] eqn:E; [|reflexivity].
  unfold round_times, _round_review_time_up, _round_last_studied_up,
    _round_last_studied_date, _round_next_review_date, bind, self, assign, save;
    cbn [obj row streak set_next_review_date set_last_studied next_review_date last_studied].
  rewrite E.
  repeat (cbn [obj row streak set_next_review_date set_last_studied next_review_date
               last_studied]; rewrite ?rounded_ok).
  reflexivity.
Qed.

End Scheduling.

Lemma bring_review_out_of_vacation_never_studied (c : Constants)
    (vacation_duration : timedelta) (r : UserSpecific) :
  last_studied r = None ->
  call (bring_review_out_of_vacation c vacation_duration) r = Raise TypeError.
Proof.
  intros H. unfold call, bring_review_out_of_vacation, bind, self, load, raise; cbn [obj].
  now rewrite H.
Qed.

Lemma reset_call (now : datetime) (r : UserSpecific) :
  call (reset now) r =
  Ok {| correct := 1; incorrect := 0; streak := 1; last_studied := None;
        needs_review := true; unlock_date := unlock_date r;
        next_review_date := Some now; burned := false; critical := critical r |}.
Proof. reflexivity. Qed.

(** ** Arithmetic of the rounding *)

Section Rounding.

Variable c : Constants.

Let round_to := REVIEW_ROUNDING_TIME c.

Lemma seconds_since_midnight_range (d : datetime) :
  0 <= seconds_since_midnight d < DAY_SECONDS.
Proof. unfold seconds_since_midnight, DAY_SECONDS. apply Z.mod_pos_bound. lia. Qed.

(** The multiple of the granularity that the seconds are rounded to lies
    strictly above them and at most one granularity away. *)
Lemma rounding_bounds (seconds : Z) :
  0 < round_to ->
  seconds < (seconds + round_to) / round_to * round_to <= seconds + round_to.
Proof.
  intros Hpos.
  pose proof (Z.div_mod (seconds + round_to) round_to ltac:(lia)) as Hdm.
  pose proof (Z.mod_pos_bound (seconds + round_to) round_to Hpos) as Hm.
  nia.
Qed.

Lemma round_up_bounds (d : datetime) :
  0 < round_to ->
  d < round_up c d <= d + of_seconds round_to.
Proof.
  intros Hpos. unfold round_up, of_seconds, MICROS. fold round_to.
  pose proof (rounding_bounds (seconds_since_midnight d) Hpos). lia.
Qed.

Lemma round_up_microsecond (d : datetime) :
  microsecond (round_up c d) = microsecond d.
Proof.
  unfold round_up, microsecond, of_seconds. apply Z_mod_plus_full.
Qed.

Lemma round_up_boundary (d : datetime) :
  granularity_divides_day c ->
  seconds_since_midnight (round_up c d) mod round_to = 0.
Proof.
  intros [Hpos Hdiv]. fold round_to in Hpos, Hdiv.
  unfold round_up, of_seconds. fold round_to.
  set (k := (seconds_since_midnight d + round_to) / round_to).
  unfold seconds_since_midnight at 1.
  rewrite Z.div_add by (unfold MICROS; lia).
  unfold seconds_since_midnight.
  pose proof (Z.div_mod (d / MICROS) DAY_SECONDS ltac:(unfold DAY_SECONDS; lia)) as Hq.
  replace (d / MICROS + (k * round_to - (d / MICROS) mod DAY_SECONDS))
    with (k * round_to + (d / MICROS / DAY_SECONDS) * DAY_SECONDS) by lia.
  rewrite Z_mod_plus_full.
  rewrite Z.mod_mod_divide by assumption.
  apply Z_mod_mult.
Qed.

End Rounding.

(** ** Fields left alone by the scheduling step *)

Section Fields.

Variable c : Constants.

Lemma scheduled_fields (now : datetime) (r : UserSpecific) :
  correct (scheduled c now r) = correct r /\
  incorrect (scheduled c now r) = incorrect r /\
  streak (scheduled c now r) = streak r /\
  last_studied (scheduled c now r) = last_studied r /\
  needs_review (scheduled c now r) = needs_review r /\
  burned (scheduled c now r) = burned r.
Proof. unfold scheduled. destruct (SRS_TIMES c !! streak r); cbn; tauto. Qed.

Lemma scheduled_next_review_date (now : datetime) (r : UserSpecific) :
  next_review_date (scheduled c now r) =
  match SRS_TIMES c !! streak r with
  | Some h => Some (round_up c (now + hours h))
  | None => None
  end.
Proof. unfold scheduled. now destruct (SRS_TIMES c !! streak r). Qed.

Lemma shifted_counters (ls : datetime) (d : timedelta) (r : UserSpecific) :
  correct (shifted c ls d r) = correct r /\
  incorrect (shifted c ls d r) = incorrect r /\
  streak (shifted c ls d r) = streak r /\
  needs_review (shifted c ls d r) = needs_review r /\
  burned (shifted c ls d r) = burned r.
Proof. unfold shifted. destruct (SRS_TIMES c !! streak r); cbn; tauto. Qed.

Lemma graded_correct_burned (now : datetime) (first_try : bool) (r : UserSpecific) :
  burned (graded_correct c now first_try r) =
  burned r || (negb (streak r =? 0) && first_try && (BURNED_STREAK c <=? streak r + 1)).
Proof.
  unfold graded_correct.
  destruct (streak r =? 0), first_try, (BURNED_STREAK c <=? streak r + 1);
    cbn; now rewrite ?orb_false_r, ?orb_true_r.
Qed.

Lemma graded_correct_streak (now : datetime) (first_try : bool) (r : UserSpecific) :
  streak (graded_correct c now first_try r) =
  if streak r =? 0 then 1 else if first_try then streak r + 1 else streak r.
Proof.
  unfold graded_correct.
  destruct (Z.eqb_spec (streak r) 0) as [->|]; [reflexivity|].
  destruct first_try, (BURNED_STREAK c <=? streak r + 1); reflexivity.
Qed.

Lemma graded_correct_counters (now : datetime) (first_try : bool) (r : UserSpecific) :
  correct (graded_correct c now first_try r) =
    (if streak r =? 0 then correct r else if first_try then correct r + 1 else correct r) /\
  incorrect (graded_correct c now first_try r) = incorrect r.
Proof.
  unfold graded_correct.
  destruct (streak r =? 0), first_try, (BURNED_STREAK c <=? streak r + 1); cbn; tauto.
Qed.

Lemma graded_correct_stamps (now : datetime) (first_try : bool) (r : UserSpecific) :
  needs_review (graded_correct c now first_try r) = false /\
  last_studied (graded_correct c now first_try r) = Some now.
Proof. unfold graded_correct. cbn. tauto. Qed.

End Fields.

(** ** The burned invariant *)

Lemma example_burn_stage_unscheduled : burn_stage_unscheduled example_constants.
Proof.
  intros k Hk. cbn in Hk. cbn [example_constants SRS_TIMES list_to_map foldr uncurry].
  cbn [fst snd].
  repeat (rewrite lookup_insert_ne by lia).
  apply lookup_empty.
Defined.

Section BurnedInvariant.

Variable c : Constants.

Hypothesis attempts_positive : 1 <= MINIMUM_ATTEMPT_COUNT_FOR_CRITICALITY c.
Hypothesis granularity_nonzero : REVIEW_ROUNDING_TIME c <> 0.
Hypothesis unscheduled : burn_stage_unscheduled c.

Lemma answered_correctly_establishes (n1 n2 : datetime) (first_try : bool)
    (r r' : UserSpecific) :
  burned r = false ->
  call (answered_correctly c n1 n2 first_try) r = Ok r' ->
  burned_invariant r'.
Proof.
  intros Hb Hcall. rewrite answered_correctly_call in Hcall by assumption.
  injection Hcall as <-. intros Hburned. cbn in Hburned |- *.
  destruct (scheduled_fields c n2 (graded_correct c n1 first_try r))
    as (_ & _ & Hs & _ & Hn & Hbu).
  rewrite Hbu, graded_correct_burned, Hb in Hburned. cbn [orb] in Hburned.
  apply andb_true_iff in Hburned as [Hburned Hge].
  apply andb_true_iff in Hburned as [Hnz Hft].
  apply negb_true_iff in Hnz. apply Z.leb_le in Hge.
  split.
  - rewrite scheduled_next_review_date, graded_correct_streak, Hnz, Hft.
    now rewrite unscheduled.
  - rewrite Hn. apply graded_correct_stamps.
Qed.

Lemma answered_incorrectly_preserves (r r' : UserSpecific) :
  burned_invariant r ->
  call (answered_incorrectly c) r = Ok r' ->
  burned_invariant r'.
Proof.
  intros Hinv Hcall. rewrite answered_incorrectly_call in Hcall by assumption.
  injection Hcall as <-. exact Hinv.
Qed.

Lemma bring_review_out_of_vacation_preserves (d : timedelta) (r r' : UserSpecific) :
  burned r = false ->
  call (bring_review_out_of_vacation c d) r = Ok r' ->
  burned_invariant r'.
Proof.
  intros Hb Hcall. destruct (last_studied r) as [ls|] eqn:Hls.
  - rewrite (bring_review_out_of_vacation_call c granularity_nonzero d r ls Hls) in Hcall.
    injection Hcall as <-. intros Hburned.
    destruct (shifted_counters c ls d r) as (_ & _ & _ & _ & Hbu). congruence.
  - rewrite bring_review_out_of_vacation_never_studied in Hcall by assumption.
    discriminate.
Qed.

Lemma reachable_burned_invariant (r : UserSpecific) :
  reachable c r -> burned_invariant r.
Proof.
  induction 1 as [now|r r' e Hr IH Hadm Happ].
  - intros Hb. discriminate.
  - destruct e as [n1 n2 ft| |now|d]; unfold apply in Happ; cbn in Hadm.
    + eapply answered_correctly_establishes; eassumption.
    + eapply answered_incorrectly_preserves; eassumption.
    + rewrite reset_call in Happ. injection Happ as <-. intros Hb. discriminate.
    + eapply bring_review_out_of_vacation_preserves; eassumption.
Qed.

Lemma burning_answer (n1 n2 : datetime) (r : UserSpecific) :
  streak r <> 0 -> BURNED_STREAK c <= streak r + 1 ->
  exists r', call (answered_correctly c n1 n2 true) r = Ok r' /\
             burned r' = true /\ next_review_date r' = None /\
             needs_review r' = false.
Proof.
  intros Hnz Hge. eexists. split.
  - apply answered_correctly_call; assumption.
  - cbn.
    destruct (scheduled_fields c n2 (graded_correct c n1 true r))
      as (_ & _ & _ & _ & Hn & Hbu).
    rewrite Hbu, Hn, scheduled_next_review_date, graded_correct_burned,
      graded_correct_streak.
    destruct (Z.eqb_spec (streak r) 0) as [|_]; [contradiction|].
    apply Z.leb_le in Hge as Hge'. rewrite Hge', unscheduled by assumption.
    rewrite orb_true_r. split; [reflexivity|]. split; [reflexivity|].
    apply graded_correct_stamps.
Qed.

End BurnedInvariant.

(** C1, as stated: the trace [regrading_trace] uses only grading events,
    starts from a freshly created record and ends in a record that is
    burned and yet has a scheduled review. *)
Lemma burned_invariant_broken_by_regrading :
  exists r, replay example_constants regrading_trace (create 0) = Ok r /\
            burned r = true /\ next_review_date r <> None.
Proof.
  eexists. split; [vm_compute; reflexivity|]. split; [reflexivity|discriminate].
Qed.

(** C1, amended: when no stage from the burn stage on has an entry in the
    interval table, every record reached from a freshly created one by
    [answered_incorrectly] and [reset] on any record and by
    [answered_correctly] and [bring_review_out_of_vacation] on non-burned
    records satisfies: burned implies no scheduled review and
    [needs_review] false.  In particular a first-try correct answer that
    takes the streak of a record out of the lesson state to the burn stage
    returns a record that is burned, has no scheduled review and does not
    need review. *)
Theorem burned_invariant_when_burned_records_are_not_regraded (c : Constants) :
  1 <= MINIMUM_ATTEMPT_COUNT_FOR_CRITICALITY c ->
  REVIEW_ROUNDING_TIME c <> 0 ->
  burn_stage_unscheduled c ->
  (forall r, reachable c r -> burned_invariant r) /\
  (forall (n1 n2 : datetime) (r : UserSpecific),
     streak r <> 0 -> BURNED_STREAK c <= streak r + 1 ->
     exists r', call (answered_correctly c n1 n2 true) r = Ok r' /\
                burned r' = true /\ next_review_date r' = None /\
                needs_review r' = false).
Proof.
  intros Hmin Hround Hburn. split.
  - intros r. now apply reachable_burned_invariant.
  - intros n1 n2 r. now apply burning_answer.
Qed.

Lemma burned_invariant_example :
  (forall r, reachable example_constants r -> burned_invariant r) /\
  (forall (n1 n2 : datetime) (r : UserSpecific),
     streak r <> 0 -> BURNED_STREAK example_constants <= streak r + 1 ->
     exists r', call (answered_correctly example_constants n1 n2 true) r = Ok r' /\
                burned r' = true /\ next_review_date r' = None /\
                needs_review r' = false).
Proof.
  apply (burned_invariant_when_burned_records_are_not_regraded example_constants).
  - cbn. lia.
  - cbn. lia.
  - exact example_burn_stage_unscheduled.
Defined.

(** Under any constants, a correct answer after a retry puts a burned
    record whose streak has an entry in the interval table back on the
    schedule and leaves it burned. *)
Remark regrading_schedules_a_burned_record (c : Constants) (n1 n2 : datetime)
    (r : UserSpecific) (h : Z) :
  1 <= MINIMUM_ATTEMPT_COUNT_FOR_CRITICALITY c ->
  REVIEW_ROUNDING_TIME c <> 0 ->
  burned r = true -> streak r <> 0 -> SRS_TIMES c !! streak r = Some h ->
  exists r', call (answered_correctly c n1 n2 false) r = Ok r' /\
             burned r' = true /\
             next_review_date r' = Some (round_up c (n2 + hours h)).
Proof.
  intros Hmin Hround Hb Hnz Hh. eexists.
  split; [now apply answered_correctly_call|].
  cbn.
  destruct (scheduled_fields c n2 (graded_correct c n1 false r))
    as (_ & _ & _ & _ & _ & Hbu).
  rewrite Hbu, scheduled_next_review_date, graded_correct_burned,
    graded_correct_streak, Hb.
  destruct (Z.eqb_spec (streak r) 0) as [|_]; [contradiction|].
  now rewrite Hh.
Qed.

(** ** Wrong answers *)

(** C2, as stated: [sample_review] does not need review, and still does not
    after a wrong answer. *)
Lemma answered_incorrectly_does_not_set_needs_review :
  exists r', call (answered_incorrectly example_constants) sample_review = Ok r' /\
             needs_review r' <> true.
Proof. eexists. split; [vm_compute; reflexivity|]. discriminate. Qed.

(** C2, amended: [answered_incorrectly] returns with [needs_review] and
    [next_review_date] both as they were before the call; it neither marks
    the record as needing review nor reschedules it. *)
Theorem answered_incorrectly_keeps_schedule (c : Constants) (r : UserSpecific) :
  1 <= MINIMUM_ATTEMPT_COUNT_FOR_CRITICALITY c ->
  exists r', call (answered_incorrectly c) r = Ok r' /\
             needs_review r' = needs_review r /\
             next_review_date r' = next_review_date r.
Proof.
  intros Hmin. eexists. split; [now apply answered_incorrectly_call|].
  split; reflexivity.
Qed.

Lemma answered_incorrectly_keeps_schedule_example :
  exists r', call (answered_incorrectly example_constants) sample_review = Ok r' /\
             needs_review r' = needs_review sample_review /\
             next_review_date r' = next_review_date sample_review.
Proof.
  apply (answered_incorrectly_keeps_schedule example_constants sample_review).
  cbn. lia.
Defined.

(** C4, as stated: a wrong answer on a freshly created record leaves the
    streak at 0, below the minimum of 1. *)
Lemma answered_incorrectly_leaves_lesson_streak :
  exists r', call (answered_incorrectly example_constants) (create 0) = Ok r' /\
             ~ 1 <= streak r'.
Proof. eexists. split; [vm_compute; reflexivity|]. cbn. lia. Qed.

(** C4, amended: for a record with a non-negative streak,
    [answered_incorrectly] leaves streak - 2 when the streak is 7, else
    streak - 1 when the streak is above 1, else the streak as it was.  The
    new streak is never above the old one, is at least 1 when the old one
    was, and stays 0 when the old one was 0.  The stage 7 is one below the
    burn stage exactly when the burn stage is 8. *)
Theorem answered_incorrectly_streak (c : Constants) (r : UserSpecific) :
  1 <= MINIMUM_ATTEMPT_COUNT_FOR_CRITICALITY c ->
  0 <= streak r ->
  exists r', call (answered_incorrectly c) r = Ok r' /\
             streak r' = (if streak r =? 7 then streak r - 2
                          else if 1 <? streak r then streak r - 1
                          else streak r) /\
             streak r' <= streak r /\
             (1 <= streak r -> 1 <= streak r') /\
             (streak r = 0 -> streak r' = 0) /\
             (BURNED_STREAK c = 8 -> streak r = BURNED_STREAK c - 1 ->
              streak r' = streak r - 2).
Proof.
  intros Hmin Hs. eexists. split; [now apply answered_incorrectly_call|].
  cbn. unfold streak_after_incorrect.
  destruct (Z.eqb_spec (streak r) 7) as [H7|H7];
    [|destruct (Z.ltb_spec 1 (streak r)) as [H1|H1]]; repeat split; lia.
Qed.

Lemma answered_incorrectly_streak_example :
  exists r', call (answered_incorrectly example_constants) sample_review = Ok r' /\
             streak r' = (if streak sample_review =? 7 then streak sample_review - 2
                          else if 1 <? streak sample_review then streak sample_review - 1
                          else streak sample_review) /\
             streak r' <= streak sample_review /\
             (1 <= streak sample_review -> 1 <= streak r') /\
             (streak sample_review = 0 -> streak r' = 0) /\
             (BURNED_STREAK example_constants = 8 ->
              streak sample_review = BURNED_STREAK example_constants - 1 ->
              streak r' = streak sample_review - 2).
Proof.
  apply (answered_incorrectly_streak example_constants sample_review).
  - cbn. lia.
  - cbn. lia.
Defined.

(** ** Grading a burned record *)

(** C3, as stated: neither grading call returns [sample_burned] as it was;
    the wrong answer counts and lowers the streak, the correct one counts,
    raises the streak and stamps [last_studied]. *)
Lemma grading_a_burned_record_changes_it :
  call (answered_incorrectly example_constants) sample_burned <> Ok sample_burned /\
  call (answered_correctly example_constants 100 101 true) sample_burned
    <> Ok sample_burned.
Proof. split; vm_compute; discriminate. Qed.

(** C3, amended: grading a burned record is not short-circuited.  On a
    burned record [answered_incorrectly] adds one to [incorrect], moves the
    streak as for any other record and leaves [correct], [last_studied],
    [next_review_date], [needs_review] and [burned] as they were;
    [answered_correctly] stamps [last_studied], clears [needs_review],
    leaves [incorrect] and [burned] as they were, moves the streak and
    [correct] as for any other record and recomputes [next_review_date]:
    the rounded time of scheduling plus the interval of the new streak, or
    none when the new streak has no entry in the interval table. *)
Theorem grading_a_burned_record (c : Constants) (n1 n2 : datetime)
    (first_try : bool) (r : UserSpecific) :
  1 <= MINIMUM_ATTEMPT_COUNT_FOR_CRITICALITY c ->
  REVIEW_ROUNDING_TIME c <> 0 ->
  burned r = true ->
  (exists r', call (answered_incorrectly c) r = Ok r' /\
              burned r' = true /\
              incorrect r' = incorrect r + 1 /\
              correct r' = correct r /\
              streak r' = streak_after_incorrect (streak r) /\
              last_studied r' = last_studied r /\
              next_review_date r' = next_review_date r /\
              needs_review r' = needs_review r) /\
  (exists r', call (answered_correctly c n1 n2 first_try) r = Ok r' /\
              burned r' = true /\
              incorrect r' = incorrect r /\
              correct r' = (if streak r =? 0 then correct r
                            else if first_try then correct r + 1 else correct r) /\
              streak r' = (if streak r =? 0 then 1
                           else if first_try then streak r + 1 else streak r) /\
              last_studied r' = Some n1 /\
              needs_review r' = false /\
              next_review_date r' =
                match SRS_TIMES c !! streak r' with
                | Some h => Some (round_up c (n2 + hours h))
                | None => None
                end).
Proof.
  intros Hmin Hround Hb. split.
  - eexists. split; [now apply answered_incorrectly_call|].
    cbn. repeat split. exact Hb.
  - eexists. split; [now apply answered_correctly_call|].
    cbn.
    destruct (scheduled_fields c n2 (graded_correct c n1 first_try r))
      as (Hc & Hi & Hs & Hl & Hn & Hbu).
    destruct (graded_correct_counters c n1 first_try r) as [Hc' Hi'].
    destruct (graded_correct_stamps c n1 first_try r) as [Hn' Hl'].
    rewrite Hc, Hi, Hs, Hl, Hn, Hbu, Hc', Hi', Hn', Hl',
      scheduled_next_review_date, graded_correct_burned, graded_correct_streak, Hb.
    repeat split.
Qed.

Lemma grading_a_burned_record_example :
  (exists r', call (answered_incorrectly example_constants) sample_burned = Ok r' /\
              burned r' = true /\
              incorrect r' = incorrect sample_burned + 1 /\
              correct r' = correct sample_burned /\
              streak r' = streak_after_incorrect (streak sample_burned) /\
              last_studied r' = last_studied sample_burned /\
              next_review_date r' = next_review_date sample_burned /\
              needs_review r' = needs_review sample_burned) /\
  (exists r', call (answered_correctly example_constants 100 101 true) sample_burned = Ok r' /\
              burned r' = true /\
              incorrect r' = incorrect sample_burned /\
              correct r' = (if streak sample_burned =? 0 then correct sample_burned
                            else if true then correct sample_burned + 1
                            else correct sample_burned) /\
              streak r' = (if streak sample_burned =? 0 then 1
                           else if true then streak sample_burned + 1
                           else streak sample_burned) /\
              last_studied r' = Some 100 /\
              needs_review r' = false /\
              next_review_date r' =
                match SRS_TIMES example_constants !! streak r' with
                | Some h => Some (round_up example_constants (101 + hours h))
                | None => None
                end).
Proof.
  apply (grading_a_burned_record example_constants 100 101 true sample_burned).
  - cbn. lia.
  - cbn. lia.
  - reflexivity.
Defined.

(** ** The counters *)

(** C10, as stated: [reset] takes the counters of [sample_review] from 4
    and 1 down to 1 and 0. *)
Lemma reset_lowers_the_counters :
  exists r', call (reset 0) sample_review = Ok r' /\
             ~ (correct sample_review <= correct r' /\
                incorrect sample_review <= incorrect r').
Proof. eexists. split; [reflexivity|]. cbn. lia. Qed.

(** C10, amended: [answered_correctly], [answered_incorrectly] and
    [bring_review_out_of_vacation] never lower [correct] or [incorrect];
    [reset] sets [correct] to 1 and [incorrect] to 0 whatever they were. *)
Theorem counters_after_each_operation (c : Constants) (r : UserSpecific) :
  1 <= MINIMUM_ATTEMPT_COUNT_FOR_CRITICALITY c ->
  REVIEW_ROUNDING_TIME c <> 0 ->
  (forall (n1 n2 : datetime) (first_try : bool),
     exists r', call (answered_correctly c n1 n2 first_try) r = Ok r' /\
                correct r <= correct r' /\ incorrect r <= incorrect r') /\
  (exists r', call (answered_incorrectly c) r = Ok r' /\
              correct r <= correct r' /\ incorrect r <= incorrect r') /\
  (forall (d : timedelta) (ls : datetime),
     last_studied r = Some ls ->
     exists r', call (bring_review_out_of_vacation c d) r = Ok r' /\
                correct r <= correct r' /\ incorrect r <= incorrect r') /\
  (forall now : datetime,
     exists r', call (reset now) r = Ok r' /\ correct r' = 1 /\ incorrect r' = 0).
Proof.
  intros Hmin Hround. repeat apply conj.
  - intros n1 n2 first_try. eexists. split; [now apply answered_correctly_call|].
    cbn.
    destruct (scheduled_fields c n2 (graded_correct c n1 first_try r))
      as (Hc & Hi & _).
    destruct (graded_correct_counters c n1 first_try r) as [Hc' Hi'].
    rewrite Hc, Hi, Hc', Hi'.
    destruct (streak r =? 0), first_try; lia.
  - eexists. split; [now apply answered_incorrectly_call|]. cbn. lia.
  - intros d ls Hls. eexists.
    split; [exact (bring_review_out_of_vacation_call c Hround d r ls Hls)|].
    destruct (shifted_counters c ls d r) as (Hc & Hi & _). lia.
  - intros now. eexists. split; [apply reset_call|]. split; reflexivity.
Qed.

Lemma counters_after_each_operation_example :
  (forall (n1 n2 : datetime) (first_try : bool),
     exists r', call (answered_correctly example_constants n1 n2 first_try) sample_review = Ok r' /\
                correct sample_review <= correct r' /\
                incorrect sample_review <= incorrect r') /\
  (exists r', call (answered_incorrectly example_constants) sample_review = Ok r' /\
              correct sample_review <= correct r' /\
              incorrect sample_review <= incorrect r') /\
  (forall (d : timedelta) (ls : datetime),
     last_studied sample_review = Some ls ->
     exists r', call (bring_review_out_of_vacation example_constants d) sample_review = Ok r' /\
                correct sample_review <= correct r' /\
                incorrect sample_review <= incorrect r') /\
  (forall now : datetime,
     exists r', call (reset now) sample_review = Ok r' /\
                correct r' = 1 /\ incorrect r' = 0).
Proof.
  apply (counters_after_each_operation example_constants sample_review).
  - cbn. lia.
  - cbn. lia.
Defined.

(** ** Leaving the lesson state *)

(** C5: on a record in the lesson state (streak 0) [answered_correctly],
    whatever [first_try] is, returns a record with streak 1, [correct] as
    it was, [needs_review] false, [last_studied] the time of the answer and
    [next_review_date] the rounded time of scheduling plus the interval of
    stage 1 (none when the table has no entry for stage 1). *)
Theorem answered_correctly_from_lesson (c : Constants) (n1 n2 : datetime)
    (first_try : bool) (r : UserSpecific) :
  1 <= MINIMUM_ATTEMPT_COUNT_FOR_CRITICALITY c ->
  REVIEW_ROUNDING_TIME c <> 0 ->
  streak r = 0 ->
  exists r', call (answered_correctly c n1 n2 first_try) r = Ok r' /\
             streak r' = 1 /\
             correct r' = correct r /\
             needs_review r' = false /\
             last_studied r' = Some n1 /\
             next_review_date r' =
               match SRS_TIMES c !! 1 with
               | Some h => Some (round_up c (n2 + hours h))
               | None => None
               end.
Proof.
  intros Hmin Hround Hs. eexists. split; [now apply answered_correctly_call|].
  cbn.
  destruct (scheduled_fields c n2 (graded_correct c n1 first_try r))
    as (Hc & _ & Hst & Hl & Hn & _).
  destruct (graded_correct_counters c n1 first_try r) as [Hc' _].
  destruct (graded_correct_stamps c n1 first_try r) as [Hn' Hl'].
  rewrite Hc, Hst, Hl, Hn, Hc', Hn', Hl', scheduled_next_review_date,
    graded_correct_streak, Hs.
  repeat split.
Qed.

Lemma answered_correctly_from_lesson_example :
  exists r', call (answered_correctly example_constants 10 11 true) (create 0) = Ok r' /\
             streak r' = 1 /\
             correct r' = correct (create 0) /\
             needs_review r' = false /\
             last_studied r' = Some 10 /\
             next_review_date r' =
               match SRS_TIMES example_constants !! 1 with
               | Some h => Some (round_up example_constants (11 + hours h))
               | None => None
               end.
Proof.
  apply (answered_correctly_from_lesson example_constants 10 11 true (create 0)).
  - cbn. lia.
  - cbn. lia.
  - reflexivity.
Defined.

(** ** Criticality *)

Lemma error_rate_critical_iff (c : Constants) (r : UserSpecific) :
  error_rate_critical c r = true <->
  MINIMUM_ATTEMPT_COUNT_FOR_CRITICALITY c <= correct r + incorrect r /\
  (CRITICALITY_THRESHOLD c <=
   inject_Z (incorrect r) / inject_Z (correct r + incorrect r))%Q.
Proof.
  unfold error_rate_critical, _can_be_critical.
  rewrite andb_true_iff, Z.leb_le, Qle_bool_iff. reflexivity.
Qed.

Lemma set_critical_as_specified (c : Constants) (r : UserSpecific) :
  critical_as_specified c (set_critical (error_rate_critical c r) r).
Proof. unfold critical_as_specified. cbn. apply error_rate_critical_iff. Qed.

(** C6: the record that a grading call returns is critical exactly when it
    has at least the minimum number of attempts and its share of wrong
    answers reaches the threshold; with fewer attempts than the minimum it
    is not critical. *)
Theorem critical_after_grading (c : Constants) (n1 n2 : datetime)
    (first_try : bool) (r : UserSpecific) :
  1 <= MINIMUM_ATTEMPT_COUNT_FOR_CRITICALITY c ->
  REVIEW_ROUNDING_TIME c <> 0 ->
  (exists r', call (answered_correctly c n1 n2 first_try) r = Ok r' /\
              critical_as_specified c r' /\
              (correct r' + incorrect r' < MINIMUM_ATTEMPT_COUNT_FOR_CRITICALITY c ->
               critical r' = false)) /\
  (exists r', call (answered_incorrectly c) r = Ok r' /\
              critical_as_specified c r' /\
              (correct r' + incorrect r' < MINIMUM_ATTEMPT_COUNT_FOR_CRITICALITY c ->
               critical r' = false)).
Proof.
  intros Hmin Hround.
  assert (Hfew : forall x : UserSpecific,
             critical_as_specified c x ->
             correct x + incorrect x < MINIMUM_ATTEMPT_COUNT_FOR_CRITICALITY c ->
             critical x = false).
  { intros x Hx Hlt. destruct (critical x) eqn:E; [|reflexivity].
    apply Hx in E. lia. }
  split.
  - eexists. split; [now apply answered_correctly_call|].
    cbv zeta. split; [apply set_critical_as_specified|].
    apply Hfew, set_critical_as_specified.
  - eexists. split; [now apply answered_incorrectly_call|].
    split; [apply set_critical_as_specified|].
    apply Hfew, set_critical_as_specified.
Qed.

Lemma critical_after_grading_example :
  (exists r', call (answered_correctly example_constants 10 11 true) sample_review = Ok r' /\
              critical_as_specified example_constants r' /\
              (correct r' + incorrect r'
                 < MINIMUM_ATTEMPT_COUNT_FOR_CRITICALITY example_constants ->
               critical r' = false)) /\
  (exists r', call (answered_incorrectly example_constants) sample_review = Ok r' /\
              critical_as_specified example_constants r' /\
              (correct r' + incorrect r'
                 < MINIMUM_ATTEMPT_COUNT_FOR_CRITICALITY example_constants ->
               critical r' = false)).
Proof.
  apply (critical_after_grading example_constants 10 11 true sample_review).
  - cbn. lia.
  - cbn. lia.
Defined.

(** The row that [answered_incorrectly] saves: the method saves before it
    recomputes the flag, so the row keeps the flag it had. *)
Remark answered_incorrectly_stored (c : Constants) (r : UserSpecific) :
  1 <= MINIMUM_ATTEMPT_COUNT_FOR_CRITICALITY c ->
  stored (answered_incorrectly c) r = Ok (graded_incorrect r) /\
  critical (graded_incorrect r) = critical r.
Proof.
  intros Hmin. unfold stored. rewrite answered_incorrectly_run by assumption.
  split; reflexivity.
Qed.

(** ** Rounding of the scheduled review *)

Lemma _round_next_review_date_call (c : Constants) (r : UserSpecific) (d : datetime) :
  REVIEW_ROUNDING_TIME c <> 0 ->
  next_review_date r = Some d ->
  call (_round_next_review_date c) r =
  Ok (set_next_review_date (Some (round_up c d)) r).
Proof.
  intros Hround Hd.
  unfold call, _round_next_review_date, bind, self, assign, save, load; cbn [obj row].
  rewrite Hd, rounded_ok by assumption. reflexivity.
Qed.

Lemma elapsed_since_midnight_parts (d : datetime) :
  elapsed_since_midnight d = seconds_since_midnight d * MICROS + microsecond d.
Proof.
  unfold elapsed_since_midnight, seconds_since_midnight, microsecond.
  symmetry. apply Z.mod_unique with (q := d / MICROS / DAY_SECONDS).
  - left.
    pose proof (Z.mod_pos_bound (d / MICROS) DAY_SECONDS ltac:(unfold DAY_SECONDS; lia)).
    pose proof (Z.mod_pos_bound d MICROS ltac:(unfold MICROS; lia)).
    unfold DAY_SECONDS, MICROS in *. lia.
  - pose proof (Z.div_mod d MICROS ltac:(unfold MICROS; lia)).
    pose proof (Z.div_mod (d / MICROS) DAY_SECONDS ltac:(unfold DAY_SECONDS; lia)).
    unfold DAY_SECONDS, MICROS in *. lia.
Qed.

(** A timestamp whose whole seconds are on a boundary is exactly on it
    when, and only when, it has no sub-second part. *)
Lemma on_boundary_iff (c : Constants) (t : datetime) :
  0 < REVIEW_ROUNDING_TIME c ->
  seconds_since_midnight t mod REVIEW_ROUNDING_TIME c = 0 ->
  on_boundary c t <-> microsecond t = 0.
Proof.
  intros Hpos Hsec. unfold on_boundary, of_seconds.
  rewrite elapsed_since_midnight_parts.
  apply Z.mod_divide in Hsec as [j Hj]; [|lia]. rewrite Hj.
  replace (j * REVIEW_ROUNDING_TIME c * MICROS + microsecond t)
    with (microsecond t + j * (REVIEW_ROUNDING_TIME c * MICROS)) by ring.
  rewrite Z_mod_plus_full.
  rewrite Z.mod_small; [reflexivity|].
  unfold microsecond.
  pose proof (Z.mod_pos_bound t MICROS ltac:(unfold MICROS; lia)).
  unfold MICROS in *. nia.
Qed.

Lemma round_up_lands (c : Constants) (d : datetime) :
  granularity_divides_day c ->
  seconds_since_midnight (round_up c d) mod REVIEW_ROUNDING_TIME c = 0 /\
  microsecond (round_up c d) = microsecond d /\
  (on_boundary c (round_up c d) <-> microsecond d = 0) /\
  d < round_up c d <= d + of_seconds (REVIEW_ROUNDING_TIME c).
Proof.
  intros Hday. pose proof Hday as [Hpos _].
  pose proof (round_up_boundary c d Hday) as Hsec.
  split; [exact Hsec|]. split; [apply round_up_microsecond|].
  split; [|now apply round_up_bounds].
  rewrite <- (round_up_microsecond c d). now apply on_boundary_iff.
Qed.

(** C7, as stated: scheduling [sample_review] at 10:20:30.5 gives, after
    the interval of 24 hours and the rounding to the hour, 11:00:00.5 of
    the next day, half a second past the boundary. *)
Lemma rounded_review_date_keeps_sub_second_offset :
  exists r' t,
    call (set_next_review_time example_constants 37230500000) sample_review = Ok r' /\
    next_review_date r' = Some t /\
    ~ on_boundary example_constants t.
Proof.
  do 2 eexists. split; [vm_compute; reflexivity|]. split; [reflexivity|].
  vm_compute. discriminate.
Qed.

(** C7, amended: when the granularity is positive and divides the day,
    [_round_next_review_date] leaves a timestamp whose whole seconds since
    local midnight are a multiple of the granularity and whose sub-second
    part is that of the timestamp it found; the timestamp lies exactly on a
    boundary when, and only when, the one it found had no sub-second part.
    The rounding moves the timestamp strictly forward, by at most one
    granularity.  The same holds of [set_next_review_time] and the time of
    scheduling plus the interval of the streak, for every time of
    scheduling and every interval. *)
Theorem next_review_date_whole_seconds_on_boundary (c : Constants)
    (now : datetime) (r : UserSpecific) :
  granularity_divides_day c ->
  (forall d : datetime,
     next_review_date r = Some d ->
     exists r' t, call (_round_next_review_date c) r = Ok r' /\
                  next_review_date r' = Some t /\
                  seconds_since_midnight t mod REVIEW_ROUNDING_TIME c = 0 /\
                  microsecond t = microsecond d /\
                  (on_boundary c t <-> microsecond d = 0) /\
                  d < t <= d + of_seconds (REVIEW_ROUNDING_TIME c)) /\
  (forall h : Z,
     SRS_TIMES c !! streak r = Some h ->
     exists r' t, call (set_next_review_time c now) r = Ok r' /\
                  next_review_date r' = Some t /\
                  seconds_since_midnight t mod REVIEW_ROUNDING_TIME c = 0 /\
                  microsecond t = microsecond (now + hours h) /\
                  (on_boundary c t <-> microsecond (now + hours h) = 0) /\
                  now + hours h < t
                    <= now + hours h + of_seconds (REVIEW_ROUNDING_TIME c)).
Proof.
  intros Hday. pose proof Hday as [Hpos _].
  assert (Hround : REVIEW_ROUNDING_TIME c <> 0) by lia.
  split.
  - intros d Hd. exists (set_next_review_date (Some (round_up c d)) r), (round_up c d).
    split; [now apply _round_next_review_date_call|].
    split; [reflexivity|]. now apply round_up_lands.
  - intros h Hh. exists (scheduled c now r), (round_up c (now + hours h)).
    split.
    { unfold call. now rewrite set_next_review_time_run. }
    split; [rewrite scheduled_next_review_date, Hh; reflexivity|].
    now apply round_up_lands.
Qed.

Lemma example_granularity_divides_day : granularity_divides_day example_constants.
Proof. split; [cbn; lia|]. exists 24. reflexivity. Defined.

Lemma next_review_date_whole_seconds_on_boundary_example :
  (forall d : datetime,
     next_review_date sample_review = Some d ->
     exists r' t, call (_round_next_review_date example_constants) sample_review = Ok r' /\
                  next_review_date r' = Some t /\
                  seconds_since_midnight t mod REVIEW_ROUNDING_TIME example_constants = 0 /\
                  microsecond t = microsecond d /\
                  (on_boundary example_constants t <-> microsecond d = 0) /\
                  d < t <= d + of_seconds (REVIEW_ROUNDING_TIME example_constants)) /\
  (forall h : Z,
     SRS_TIMES example_constants !! streak sample_review = Some h ->
     exists r' t, call (set_next_review_time example_constants 37230500000) sample_review = Ok r' /\
                  next_review_date r' = Some t /\
                  seconds_since_midnight t mod REVIEW_ROUNDING_TIME example_constants = 0 /\
                  microsecond t = microsecond (37230500000 + hours h) /\
                  (on_boundary example_constants t
                   <-> microsecond (37230500000 + hours h) = 0) /\
                  37230500000 + hours h < t
                    <= 37230500000 + hours h
                       + of_seconds (REVIEW_ROUNDING_TIME example_constants)).
Proof.
  apply (next_review_date_whole_seconds_on_boundary
           example_constants 37230500000 sample_review).
  exact example_granularity_divides_day.
Defined.

(** The rounding always moves the timestamp, by a full granularity when it
    is already on a boundary, and carries the sub-second part along. *)
Remark round_up_strictly_later (c : Constants) (d : datetime) :
  0 < REVIEW_ROUNDING_TIME c ->
  d < round_up c d /\ microsecond (round_up c d) = microsecond d.
Proof.
  intros Hpos. split; [apply round_up_bounds; assumption|apply round_up_microsecond].
Qed.

(** ** A streak without an entry in the interval table *)

(** C9, as stated: [sample_corrupt] has a streak without an entry and is
    not burned, and [answered_correctly] returns on it without raising,
    with no scheduled review. *)
Lemma answered_correctly_tolerates_unknown_streak :
  SRS_TIMES example_constants !! streak sample_corrupt = None /\
  burned sample_corrupt = false /\
  exists r', call (answered_correctly example_constants 100 101 false) sample_corrupt = Ok r' /\
             next_review_date r' = None.
Proof.
  split; [vm_compute; reflexivity|]. split; [reflexivity|].
  eexists. split; [vm_compute; reflexivity|reflexivity].
Qed.

(** C9, amended: a streak without an entry in the interval table raises
    nothing.  [answered_correctly] always returns, with no scheduled
    review when the streak it leaves has no entry; [set_next_review_time]
    on a record whose streak has no entry returns the record with
    [next_review_date] cleared; and so does
    [bring_review_out_of_vacation] on a record whose [last_studied] is
    set.  On a record whose [last_studied] is not set
    [bring_review_out_of_vacation] raises [TypeError], whatever the streak
    and before the table is consulted. *)
Theorem unknown_streak_clears_schedule (c : Constants) (n1 n2 : datetime)
    (first_try : bool) (r : UserSpecific) :
  1 <= MINIMUM_ATTEMPT_COUNT_FOR_CRITICALITY c ->
  REVIEW_ROUNDING_TIME c <> 0 ->
  (exists r', call (answered_correctly c n1 n2 first_try) r = Ok r' /\
              (SRS_TIMES c !! streak r' = None -> next_review_date r' = None)) /\
  (SRS_TIMES c !! streak r = None ->
   call (set_next_review_time c n2) r = Ok (set_next_review_date None r)) /\
  (forall (d : timedelta) (ls : datetime),
     last_studied r = Some ls ->
     SRS_TIMES c !! streak r = None ->
     exists r', call (bring_review_out_of_vacation c d) r = Ok r' /\
                next_review_date r' = None) /\
  (forall d : timedelta,
     last_studied r = None ->
     call (bring_review_out_of_vacation c d) r = Raise TypeError).
Proof.
  intros Hmin Hround. repeat apply conj.
  - eexists. split; [now apply answered_correctly_call|].
    cbn. intros Hnone.
    destruct (scheduled_fields c n2 (graded_correct c n1 first_try r))
      as (_ & _ & Hs & _).
    rewrite Hs in Hnone. now rewrite scheduled_next_review_date, Hnone.
  - intros Hnone. unfold call. rewrite set_next_review_time_run by assumption.
    cbn [obj load]. unfold scheduled. now rewrite Hnone.
  - intros d ls Hls Hnone. eexists.
    split; [exact (bring_review_out_of_vacation_call c Hround d r ls Hls)|].
    unfold shifted. now rewrite Hnone.
  - intros d Hls. now apply bring_review_out_of_vacation_never_studied.
Qed.

Lemma unknown_streak_clears_schedule_example :
  (exists r', call (answered_correctly example_constants 100 101 false) sample_corrupt = Ok r' /\
              (SRS_TIMES example_constants !! streak r' = None ->
               next_review_date r' = None)) /\
  (SRS_TIMES example_constants !! streak sample_corrupt = None ->
   call (set_next_review_time example_constants 101) sample_corrupt
   = Ok (set_next_review_date None sample_corrupt)) /\
  (forall (d : timedelta) (ls : datetime),
     last_studied sample_corrupt = Some ls ->
     SRS_TIMES example_constants !! streak sample_corrupt = None ->
     exists r', call (bring_review_out_of_vacation example_constants d) sample_corrupt = Ok r' /\
                next_review_date r' = None) /\
  (forall d : timedelta,
     last_studied sample_corrupt = None ->
     call (bring_review_out_of_vacation example_constants d) sample_corrupt
     = Raise TypeError).
Proof.
  apply (unknown_streak_clears_schedule example_constants 100 101 false sample_corrupt).
  - cbn. lia.
  - cbn. lia.
Defined.

(** The one method that indexes the table without testing for the key
    raises [KeyError] on such a streak. *)
Remark based_on_last_studied_unknown_streak (c : Constants) (r : UserSpecific) :
  SRS_TIMES c !! streak r = None ->
  call (set_next_review_time_based_on_last_studied c) r = Raise KeyError.
Proof.
  intros Hnone.
  unfold call, set_next_review_time_based_on_last_studied, bind, self, raise, load;
    cbn [obj].
  now rewrite Hnone.
Qed.

(** ** Coming back from vacation *)

(** C8, as stated: a wrong answer takes [sample_review] from stage 3 to
    stage 2 and leaves its review date, which was set for stage 3; the
    record is not burned and has been studied.  Coming back from a vacation
    of one day then sets the review date from the interval of stage 2, and
    the review date moves by sixteen hours less than the vacation lasted,
    far more than one granularity of rounding. *)
Lemma vacation_shift_after_a_wrong_answer :
  exists r1 r2 t1 t2,
    call (answered_incorrectly example_constants) sample_review = Ok r1 /\
    burned r1 = false /\ last_studied r1 <> None /\
    call (bring_review_out_of_vacation example_constants one_day) r1 = Ok r2 /\
    next_review_date r1 = Some t1 /\ next_review_date r2 = Some t2 /\
    ~ Z.abs (t2 - t1 - one_day) <= of_seconds (REVIEW_ROUNDING_TIME example_constants).
Proof.
  do 4 eexists.
  split; [vm_compute; reflexivity|].
  split; [reflexivity|]. split; [discriminate|].
  split; [vm_compute; reflexivity|].
  split; [reflexivity|]. split; [reflexivity|].
  vm_compute. intros H. apply H. reflexivity.
Qed.

(** C8, amended: on every record that has been studied,
    [bring_review_out_of_vacation] returns.  When the streak has an entry
    in the interval table, [next_review_date] becomes the rounding of the
    old [last_studied] plus the vacation plus the interval, and
    [last_studied] becomes a timestamp later than the old one plus the
    vacation by at most two granularities; when the review date before the
    call was at most one granularity later than [last_studied] plus the
    interval of the streak, the review date moves by the length of the
    vacation to within one granularity.  When the streak has no entry,
    [next_review_date] is cleared and [last_studied] is the old one plus
    the vacation. *)
Theorem vacation_shift (c : Constants) (d : timedelta) (r : UserSpecific)
    (ls : datetime) :
  0 < REVIEW_ROUNDING_TIME c ->
  last_studied r = Some ls ->
  exists r', call (bring_review_out_of_vacation c d) r = Ok r' /\
    match SRS_TIMES c !! streak r with
    | Some h =>
        next_review_date r' = Some (round_up c (ls + d + hours h)) /\
        (exists s, last_studied r' = Some s /\
                   ls + d < s <= ls + d + 2 * of_seconds (REVIEW_ROUNDING_TIME c)) /\
        (forall t0 : datetime,
           next_review_date r = Some t0 ->
           ls + hours h < t0 <= ls + hours h + of_seconds (REVIEW_ROUNDING_TIME c) ->
           exists t, next_review_date r' = Some t /\
                     Z.abs (t - t0 - d) < of_seconds (REVIEW_ROUNDING_TIME c))
    | None =>
        next_review_date r' = None /\ last_studied r' = Some (ls + d)
    end.
Proof.
  intros Hpos Hls.
  assert (Hround : REVIEW_ROUNDING_TIME c <> 0) by lia.
  exists (shifted c ls d r).
  split; [exact (bring_review_out_of_vacation_call c Hround d r ls Hls)|].
  unfold shifted. destruct (SRS_TIMES c !! streak r) as [h|]; [|split; reflexivity].
  split; [reflexivity|]. split.
  - eexists. split; [reflexivity|].
    pose proof (round_up_bounds c (ls + d) Hpos).
    pose proof (round_up_bounds c (round_up c (ls + d)) Hpos). lia.
  - intros t0 _ Ht0. eexists. split; [reflexivity|].
    pose proof (round_up_bounds c (ls + d + hours h) Hpos). lia.
Qed.

Lemma vacation_shift_example :
  exists r', call (bring_review_out_of_vacation example_constants one_day) sample_review = Ok r' /\
    match SRS_TIMES example_constants !! streak sample_review with
    | Some h =>
        next_review_date r' = Some (round_up example_constants (37230500000 + one_day + hours h)) /\
        (exists s, last_studied r' = Some s /\
                   37230500000 + one_day < s
                     <= 37230500000 + one_day
                        + 2 * of_seconds (REVIEW_ROUNDING_TIME example_constants)) /\
        (forall t0 : datetime,
           next_review_date sample_review = Some t0 ->
           37230500000 + hours h < t0
             <= 37230500000 + hours h + of_seconds (REVIEW_ROUNDING_TIME example_constants) ->
           exists t, next_review_date r' = Some t /\
                     Z.abs (t - t0 - one_day)
                       < of_seconds (REVIEW_ROUNDING_TIME example_constants))
    | None =>
        next_review_date r' = None /\ last_studied r' = Some (37230500000 + one_day)
    end.
Proof.
  apply (vacation_shift example_constants one_day sample_review 37230500000).
  - cbn. lia.
  - reflexivity.
Defined.

(** [round_times] rounds [last_studied] once in [_round_review_time_up]
    and once more in [_round_last_studied_up]. *)
Remark vacation_rounds_last_studied_twice (c : Constants) (d : timedelta)
    (r : UserSpecific) (ls : datetime) (h : Z) :
  REVIEW_ROUNDING_TIME c <> 0 ->
  last_studied r = Some ls ->
  SRS_TIMES c !! streak r = Some h ->
  exists r', call (bring_review_out_of_vacation c d) r = Ok r' /\
             last_studied r' = Some (round_up c (round_up c (ls + d))).
Proof.
  intros Hround Hls Hh. eexists.
  split; [exact (bring_review_out_of_vacation_call c Hround d r ls Hls)|].
  unfold shifted. now rewrite Hh.
Qed.

(** * Further properties of the engine *)

(** ** The rounding in absolute time *)

Section RoundingClosedForm.

Variable c : Constants.

Hypothesis divides_day : granularity_divides_day c.

Let round_to := REVIEW_ROUNDING_TIME c.

Lemma timestamp_parts (d : datetime) :
  d = (d / MICROS) * MICROS + microsecond d.
Proof.
  unfold microsecond.
  pose proof (Z.div_mod d MICROS ltac:(unfold MICROS; lia)). lia.
Qed.

Lemma round_up_closed_form (d : datetime) :
  round_up c d = (d / MICROS / round_to + 1) * round_to * MICROS + microsecond d.
Proof.
  destruct divides_day as [Hpos [m Hm]]. fold round_to in Hpos, Hm.
  unfold round_up, of_seconds, seconds_since_midnight. fold round_to.
  set (q := d / MICROS).
  pose proof (Z.div_mod q DAY_SECONDS ltac:(unfold DAY_SECONDS; lia)) as Hq.
  set (s := q mod DAY_SECONDS) in *.
  set (days := q / DAY_SECONDS) in *.
  assert (Hk : (s + round_to) / round_to = s / round_to + 1).
  { replace (s + round_to) with (s + 1 * round_to) by lia.
    apply Z.div_add. lia. }
  assert (Hq' : q = s + (days * m) * round_to).
  { rewrite Hq at 1. rewrite Hm. ring. }
  assert (Hqr : q / round_to = s / round_to + days * m).
  { rewrite Hq' at 1. apply Z.div_add. lia. }
  rewrite Hk, Hqr.
  pose proof (timestamp_parts d) as Hd. fold q in Hd.
  rewrite Hd at 1. rewrite Hq' at 1.
  match goal with |- ?a = ?b => change (@eq Z a b) end. ring.
Qed.

Lemma round_up_on_boundary (d : datetime) :
  seconds_since_midnight d mod round_to = 0 ->
  round_up c d = d + of_seconds round_to.
Proof.
  destruct divides_day as [Hpos _]. fold round_to in Hpos.
  intros Hb. unfold round_up, of_seconds. fold round_to.
  set (s := seconds_since_midnight d) in *.
  apply Z.mod_divide in Hb as [j Hj]; [|lia].
  replace ((s + round_to) / round_to) with (j + 1).
  - lia.
  - rewrite Hj. replace (j * round_to + round_to) with ((j + 1) * round_to) by lia.
    symmetry. apply Z.div_mul. lia.
Qed.

Lemma round_up_twice (d : datetime) :
  round_up c (round_up c d) = round_up c d + of_seconds round_to.
Proof.
  apply round_up_on_boundary. apply round_up_boundary. exact divides_day.
Qed.

End RoundingClosedForm.

(** X1: when the granularity divides the day, [_round_next_review_date]
    sets the review date to the first multiple of the granularity, counted
    from [datetime.min] in whole seconds, that lies strictly after the
    whole seconds of the old date, plus the sub-second part of the old
    date; the day the timestamp falls in plays no part. *)
Theorem rounding_in_absolute_time (c : Constants) (r : UserSpecific) (d : datetime) :
  granularity_divides_day c ->
  next_review_date r = Some d ->
  call (_round_next_review_date c) r =
  Ok (set_next_review_date
        (Some ((d / MICROS / REVIEW_ROUNDING_TIME c + 1)
               * REVIEW_ROUNDING_TIME c * MICROS + microsecond d)) r).
Proof.
  intros Hday Hd. pose proof Hday as [Hpos _].
  rewrite (_round_next_review_date_call c r d) by (assumption || lia).
  now rewrite round_up_closed_form.
Qed.

Lemma rounding_in_absolute_time_example :
  call (_round_next_review_date example_constants) sample_review =
  Ok (set_next_review_date
        (Some ((126000000000 / MICROS / REVIEW_ROUNDING_TIME example_constants + 1)
               * REVIEW_ROUNDING_TIME example_constants * MICROS
               + microsecond 126000000000)) sample_review).
Proof.
  apply (rounding_in_absolute_time example_constants sample_review 126000000000).
  - exact example_granularity_divides_day.
  - reflexivity.
Defined.

(** X2: two records whose unrounded review dates fall into the same
    interval between two multiples of the granularity are given review
    dates that differ only by the sub-second parts of the unrounded dates,
    that is by less than a second. *)
Theorem rounding_batches_reviews (c : Constants) (r1 r2 : UserSpecific)
    (d1 d2 : datetime) :
  granularity_divides_day c ->
  next_review_date r1 = Some d1 ->
  next_review_date r2 = Some d2 ->
  d1 / MICROS / REVIEW_ROUNDING_TIME c = d2 / MICROS / REVIEW_ROUNDING_TIME c ->
  exists r1' r2' t1 t2,
    call (_round_next_review_date c) r1 = Ok r1' /\
    call (_round_next_review_date c) r2 = Ok r2' /\
    next_review_date r1' = Some t1 /\ next_review_date r2' = Some t2 /\
    t1 - t2 = microsecond d1 - microsecond d2 /\
    Z.abs (t1 - t2) < MICROS.
Proof.
  intros Hday H1 H2 Hslot. pose proof Hday as [Hpos _].
  do 4 eexists.
  split; [apply _round_next_review_date_call; [lia|eassumption]|].
  split; [apply _round_next_review_date_call; [lia|eassumption]|].
  split; [reflexivity|]. split; [reflexivity|].
  rewrite !round_up_closed_form by assumption. rewrite Hslot.
  unfold microsecond.
  pose proof (Z.mod_pos_bound d1 MICROS ltac:(unfold MICROS; lia)).
  pose proof (Z.mod_pos_bound d2 MICROS ltac:(unfold MICROS; lia)).
  split; lia.
Qed.

Lemma rounding_batches_reviews_example :
  exists r1' r2' t1 t2,
    call (_round_next_review_date example_constants)
         (set_next_review_date (Some 37230500000) sample_review) = Ok r1' /\
    call (_round_next_review_date example_constants)
         (set_next_review_date (Some 39599999999) sample_review) = Ok r2' /\
    next_review_date r1' = Some t1 /\ next_review_date r2' = Some t2 /\
    t1 - t2 = microsecond 37230500000 - microsecond 39599999999 /\
    Z.abs (t1 - t2) < MICROS.
Proof.
  apply (rounding_batches_reviews example_constants
           (set_next_review_date (Some 37230500000) sample_review)
           (set_next_review_date (Some 39599999999) sample_review)
           37230500000 39599999999).
  - exact example_granularity_divides_day.
  - reflexivity.
  - reflexivity.
  - reflexivity.
Defined.

(** X3: among timestamps with the same sub-second part (whole seconds, for
    one) the rounding keeps the order: the later review date is rounded to
    the later or the same time. *)
Theorem rounding_keeps_order (c : Constants) (d1 d2 : datetime) :
  granularity_divides_day c ->
  microsecond d1 = microsecond d2 ->
  d1 <= d2 ->
  round_up c d1 <= round_up c d2.
Proof.
  intros Hday Hmicro Hle. pose proof Hday as [Hpos _].
  rewrite !round_up_closed_form by assumption. rewrite Hmicro.
  assert (d1 / MICROS / REVIEW_ROUNDING_TIME c <= d2 / MICROS / REVIEW_ROUNDING_TIME c).
  { apply Z.div_le_mono; [lia|]. apply Z.div_le_mono; [unfold MICROS; lia|assumption]. }
  apply Z.add_le_mono_r.
  apply Z.mul_le_mono_nonneg_r; [unfold MICROS; lia|].
  apply Z.mul_le_mono_nonneg_r; lia.
Qed.

Lemma rounding_keeps_order_example :
  round_up example_constants 37230000000 <= round_up example_constants 39600000000.
Proof.
  apply (rounding_keeps_order example_constants 37230000000 39600000000).
  - exact example_granularity_divides_day.
  - reflexivity.
  - lia.
Defined.

(** X4: when the granularity divides the day and the streak has an entry
    in the interval table, [bring_review_out_of_vacation] leaves
    [last_studied] one full granularity after the rounding of the shifted
    time, because [round_times] rounds it a second time; it ends more than
    one granularity after the shifted time. *)
Theorem vacation_moves_last_studied_past_the_boundary (c : Constants)
    (d : timedelta) (r : UserSpecific) (ls : datetime) (h : Z) :
  granularity_divides_day c ->
  last_studied r = Some ls ->
  SRS_TIMES c !! streak r = Some h ->
  exists r', call (bring_review_out_of_vacation c d) r = Ok r' /\
             last_studied r' =
               Some (round_up c (ls + d) + of_seconds (REVIEW_ROUNDING_TIME c)) /\
             last_studied r' <> Some (round_up c (ls + d)) /\
             forall s, last_studied r' = Some s ->
                       ls + d + of_seconds (REVIEW_ROUNDING_TIME c) < s.
Proof.
  intros Hday Hls Hh. pose proof Hday as [Hpos _].
  assert (Hround : REVIEW_ROUNDING_TIME c <> 0) by lia.
  eexists. split; [exact (bring_review_out_of_vacation_call c Hround d r ls Hls)|].
  unfold shifted. rewrite Hh. cbn [last_studied set_last_studied].
  rewrite round_up_twice by assumption.
  pose proof (round_up_bounds c (ls + d) Hpos) as Hb.
  split; [reflexivity|]. split.
  - intros E. injection E as E. unfold of_seconds, MICROS in E. lia.
  - intros s E. injection E as <-. lia.
Qed.

Lemma vacation_moves_last_studied_past_the_boundary_example :
  exists r', call (bring_review_out_of_vacation example_constants one_day) sample_review = Ok r' /\
             last_studied r' =
               Some (round_up example_constants (37230500000 + one_day)
                     + of_seconds (REVIEW_ROUNDING_TIME example_constants)) /\
             last_studied r' <> Some (round_up example_constants (37230500000 + one_day)) /\
             forall s, last_studied r' = Some s ->
                       37230500000 + one_day
                       + of_seconds (REVIEW_ROUNDING_TIME example_constants) < s.
Proof.
  apply (vacation_moves_last_studied_past_the_boundary
           example_constants one_day sample_review 37230500000 24).
  - exact example_granularity_divides_day.
  - reflexivity.
  - vm_compute. reflexivity.
Defined.

(** ** Traces of events *)

Section Traces.

Variable c : Constants.

Hypothesis attempts_positive : 1 <= MINIMUM_ATTEMPT_COUNT_FOR_CRITICALITY c.
Hypothesis granularity_nonzero : REVIEW_ROUNDING_TIME c <> 0.

(** What one event leaves of the flag, the streak and the counters. *)
Lemma apply_outcome (e : event) (r r' : UserSpecific) :
  apply c e r = Ok r' ->
  match e with
  | AnsweredCorrectly _ _ first_try =>
      burned r' = burned r
                  || (negb (streak r =? 0) && first_try && (BURNED_STREAK c <=? streak r + 1)) /\
      streak r' = (if streak r =? 0 then 1
                   else if first_try then streak r + 1 else streak r) /\
      correct r' = (if streak r =? 0 then correct r
                    else if first_try then correct r + 1 else correct r) /\
      incorrect r' = incorrect r
  | AnsweredIncorrectly =>
      burned r' = burned r /\
      streak r' = streak_after_incorrect (streak r) /\
      correct r' = correct r /\
      incorrect r' = incorrect r + 1
  | Reset _ =>
      burned r' = false /\ streak r' = 1 /\ correct r' = 1 /\ incorrect r' = 0
  | OutOfVacation _ =>
      burned r' = burned r /\ streak r' = streak r /\
      correct r' = correct r /\ incorrect r' = incorrect r
  end.
Proof.
  destruct e as [n1 n2 ft| |now|d]; unfold apply; intros H.
  - rewrite answered_correctly_call in H by assumption. injection H as <-.
    cbn.
    destruct (scheduled_fields c n2 (graded_correct c n1 ft r))
      as (Hc & Hi & Hs & _ & _ & Hb).
    destruct (graded_correct_counters c n1 ft r) as [Hc' Hi'].
    rewrite Hc, Hi, Hs, Hb, Hc', Hi', graded_correct_burned, graded_correct_streak.
    repeat split.
  - rewrite answered_incorrectly_call in H by assumption. injection H as <-.
    cbn. repeat split.
  - rewrite reset_call in H. injection H as <-. cbn. repeat split.
  - destruct (last_studied r) as [ls|] eqn:Hls.
    + rewrite (bring_review_out_of_vacation_call c granularity_nonzero d r ls Hls) in H.
      injection H as <-.
      destruct (shifted_counters c ls d r) as (Hc & Hi & Hs & _ & Hb). tauto.
    + rewrite bring_review_out_of_vacation_never_studied in H by assumption.
      discriminate.
Qed.

Lemma streak_after_incorrect_bounds (n : Z) :
  (1 <= n -> 1 <= streak_after_incorrect n) /\ 0 <= streak_after_incorrect n.
Proof.
  unfold streak_after_incorrect.
  destruct (Z.eqb_spec n 7); [|destruct (Z.ltb_spec 1 n)]; lia.
Qed.

Lemma replay_keeps_burned (es : list event) (r r' : UserSpecific) :
  without_reset es = true -> burned r = true ->
  replay c es r = Ok r' -> burned r' = true.
Proof.
  revert r. induction es as [|e es IH]; intros r Hnr Hb Hrun.
  - injection Hrun as <-. exact Hb.
  - cbn [replay] in Hrun. destruct (apply c e r) as [r1|x] eqn:He; [|discriminate].
    apply apply_outcome in He.
    destruct e as [n1 n2 ft| |now|d]; cbn in Hnr; try discriminate;
      apply (IH r1); try assumption.
    + destruct He as (Hb1 & _). now rewrite Hb1, Hb.
    + destruct He as (Hb1 & _). congruence.
    + destruct He as (Hb1 & _). congruence.
Qed.

Lemma replay_keeps_out_of_lesson (es : list event) (r r' : UserSpecific) :
  1 <= streak r -> replay c es r = Ok r' -> 1 <= streak r'.
Proof.
  revert r. induction es as [|e es IH]; intros r Hs Hrun.
  - injection Hrun as <-. exact Hs.
  - cbn [replay] in Hrun. destruct (apply c e r) as [r1|x] eqn:He; [|discriminate].
    apply apply_outcome in He. apply (IH r1); [|assumption].
    destruct e as [n1 n2 ft| |now|d].
    + destruct He as (_ & Hs1 & _). rewrite Hs1.
      destruct (Z.eqb_spec (streak r) 0); [lia|]. destruct ft; lia.
    + destruct He as (_ & Hs1 & _). rewrite Hs1.
      now apply streak_after_incorrect_bounds.
    + destruct He as (_ & Hs1 & _). lia.
    + destruct He as (_ & Hs1 & _). lia.
Qed.

Lemma replay_counts (es : list event) (r r' : UserSpecific) :
  without_reset es = true ->
  replay c es r = Ok r' ->
  incorrect r' = incorrect r + wrong_answers es /\
  correct r <= correct r' <= correct r + right_answers es.
Proof.
  revert r. induction es as [|e es IH]; intros r Hnr Hrun.
  - injection Hrun as <-. cbn. lia.
  - cbn [replay] in Hrun. destruct (apply c e r) as [r1|x] eqn:He; [|discriminate].
    apply apply_outcome in He.
    destruct e as [n1 n2 ft| |now|d]; cbn in Hnr; try discriminate;
      destruct (IH r1 Hnr Hrun) as [Hi Hc]; cbn [wrong_answers right_answers].
    + destruct He as (_ & _ & Hc1 & Hi1).
      destruct (streak r =? 0), ft; lia.
    + destruct He as (_ & _ & Hc1 & Hi1). lia.
    + destruct He as (_ & _ & Hc1 & Hi1). lia.
Qed.

End Traces.

(** X5: no grading event and no return from vacation clears [burned]:
    along a trace without [reset], a burned record stays burned. *)
Theorem burned_is_cleared_by_reset_only (c : Constants) (es : list event)
    (r r' : UserSpecific) :
  1 <= MINIMUM_ATTEMPT_COUNT_FOR_CRITICALITY c ->
  REVIEW_ROUNDING_TIME c <> 0 ->
  without_reset es = true ->
  burned r = true ->
  replay c es r = Ok r' ->
  burned r' = true.
Proof. intros. eapply replay_keeps_burned; eassumption. Qed.

Lemma burned_is_cleared_by_reset_only_example :
  burned
    {| correct := 7; incorrect := 1; streak := 7;
       last_studied := Some 100; needs_review := false; unlock_date := 0;
       next_review_date := Some 2595600000101; burned := true;
       critical := false |} = true.
Proof.
  apply (burned_is_cleared_by_reset_only example_constants
           [AnsweredIncorrectly; AnsweredCorrectly 100 101 false] sample_burned).
  - cbn. lia.
  - cbn. lia.
  - reflexivity.
  - reflexivity.
  - vm_compute. reflexivity.
Defined.

(** X6: a record that has left the lesson state never returns to it:
    whatever the events, [reset] included, a streak of at least 1 stays at
    least 1. *)
Theorem streak_never_returns_to_lesson (c : Constants) (es : list event)
    (r r' : UserSpecific) :
  1 <= MINIMUM_ATTEMPT_COUNT_FOR_CRITICALITY c ->
  REVIEW_ROUNDING_TIME c <> 0 ->
  1 <= streak r ->
  replay c es r = Ok r' ->
  1 <= streak r'.
Proof. intros. eapply replay_keeps_out_of_lesson; eassumption. Qed.

Lemma streak_never_returns_to_lesson_example :
  1 <= streak
         {| correct := 4; incorrect := 3; streak := 1;
            last_studied := Some 37230500000; needs_review := false;
            unlock_date := 0; next_review_date := Some 126000000000;
            burned := false; critical := false |}.
Proof.
  apply (streak_never_returns_to_lesson example_constants
           [AnsweredIncorrectly; AnsweredIncorrectly] sample_review).
  - cbn. lia.
  - cbn. lia.
  - cbn. lia.
  - vm_compute. reflexivity.
Defined.

(** X7: along a trace without [reset], [incorrect] grows by exactly the
    number of wrong answers in the trace, and [correct] grows by at most
    the number of correct answers in it (answers in the lesson state and
    answers after a retry do not count). *)
Theorem counters_count_the_answers (c : Constants) (es : list event)
    (r r' : UserSpecific) :
  1 <= MINIMUM_ATTEMPT_COUNT_FOR_CRITICALITY c ->
  REVIEW_ROUNDING_TIME c <> 0 ->
  without_reset es = true ->
  replay c es r = Ok r' ->
  incorrect r' = incorrect r + wrong_answers es /\
  correct r <= correct r' <= correct r + right_answers es.
Proof. intros. eapply replay_counts; eassumption. Qed.

Lemma counters_count_the_answers_example :
  incorrect
    {| correct := 7; incorrect := 1; streak := 7;
       last_studied := Some 100; needs_review := false; unlock_date := 0;
       next_review_date := Some 2595600000101; burned := true;
       critical := false |}
  = incorrect (create 0) + wrong_answers regrading_trace /\
  correct (create 0)
  <= correct
       {| correct := 7; incorrect := 1; streak := 7;
          last_studied := Some 100; needs_review := false; unlock_date := 0;
          next_review_date := Some 2595600000101; burned := true;
          critical := false |}
  <= correct (create 0) + right_answers regrading_trace.
Proof.
  apply (counters_count_the_answers example_constants regrading_trace (create 0)).
  - cbn. lia.
  - cbn. lia.
  - reflexivity.
  - vm_compute. reflexivity.
Defined.

(** ** Correct answers outside the lesson state *)

(** X8: on a record outside the lesson state, a first-try correct answer
    adds exactly 1 to [correct] and to the streak and sets [burned] when
    the new streak reaches the burn stage; a correct answer after a retry
    leaves all three as they were.  Either way [incorrect] is unchanged,
    [needs_review] is cleared, [last_studied] is stamped and the review
    date is set from the entry of the new streak, or cleared without one. *)
Theorem answered_correctly_out_of_lesson (c : Constants) (n1 n2 : datetime)
    (first_try : bool) (r : UserSpecific) :
  1 <= MINIMUM_ATTEMPT_COUNT_FOR_CRITICALITY c ->
  REVIEW_ROUNDING_TIME c <> 0 ->
  streak r <> 0 ->
  exists r', call (answered_correctly c n1 n2 first_try) r = Ok r' /\
             (if first_try
              then correct r' = correct r + 1 /\ streak r' = streak r + 1 /\
                   burned r' = burned r || (BURNED_STREAK c <=? streak r + 1)
              else correct r' = correct r /\ streak r' = streak r /\
                   burned r' = burned r) /\
             incorrect r' = incorrect r /\
             needs_review r' = false /\
             last_studied r' = Some n1 /\
             next_review_date r' =
               match SRS_TIMES c !! streak r' with
               | Some h => Some (round_up c (n2 + hours h))
               | None => None
               end.
Proof.
  intros Hmin Hround Hs. eexists. split; [now apply answered_correctly_call|].
  cbn.
  destruct (scheduled_fields c n2 (graded_correct c n1 first_try r))
    as (Hc & Hi & Hst & Hl & Hn & Hb).
  destruct (graded_correct_counters c n1 first_try r) as [Hc' Hi'].
  destruct (graded_correct_stamps c n1 first_try r) as [Hn' Hl'].
  rewrite Hc, Hi, Hst, Hl, Hn, Hb, Hc', Hi', Hn', Hl', scheduled_next_review_date,
    graded_correct_burned, graded_correct_streak.
  destruct (Z.eqb_spec (streak r) 0) as [|_]; [contradiction|].
  destruct first_try; cbn [negb andb]; rewrite ?orb_false_r; repeat split.
Qed.

Lemma answered_correctly_out_of_lesson_example :
  exists r', call (answered_correctly example_constants 100 101 true) sample_review = Ok r' /\
             (correct r' = correct sample_review + 1 /\
              streak r' = streak sample_review + 1 /\
              burned r' = burned sample_review
                          || (BURNED_STREAK example_constants <=? streak sample_review + 1)) /\
             incorrect r' = incorrect sample_review /\
             needs_review r' = false /\
             last_studied r' = Some 100 /\
             next_review_date r' =
               match SRS_TIMES example_constants !! streak r' with
               | Some h => Some (round_up example_constants (101 + hours h))
               | None => None
               end.
Proof.
  apply (answered_correctly_out_of_lesson example_constants 100 101 true sample_review).
  - cbn. lia.
  - cbn. lia.
  - cbn. lia.
Defined.

(** ** What reaches the database *)

Lemma set_critical_same (r : UserSpecific) : set_critical (critical r) r = r.
Proof. now destruct r. Qed.

(** X9: [answered_correctly] saves last, so the row equals the instance it
    returns.  [answered_incorrectly] saves before it recomputes the flag:
    the row has the new counters and streak but the flag from before the
    call, and equals the returned instance exactly when the wrong answer
    did not change the flag. *)
Theorem rows_after_grading (c : Constants) (n1 n2 : datetime) (first_try : bool)
    (r : UserSpecific) :
  1 <= MINIMUM_ATTEMPT_COUNT_FOR_CRITICALITY c ->
  REVIEW_ROUNDING_TIME c <> 0 ->
  stored (answered_correctly c n1 n2 first_try) r
  = call (answered_correctly c n1 n2 first_try) r /\
  exists r' saved,
    call (answered_incorrectly c) r = Ok r' /\
    stored (answered_incorrectly c) r = Ok saved /\
    saved = set_critical (critical r) r' /\
    (saved = r' <-> critical r' = critical r).
Proof.
  intros Hmin Hround. split; [now apply answered_correctly_stored|].
  do 2 eexists.
  split; [now apply answered_incorrectly_call|].
  split; [unfold stored; rewrite answered_incorrectly_run by assumption; reflexivity|].
  split; [reflexivity|].
  split.
  - intros E. apply (f_equal critical) in E. cbn in E. cbn. congruence.
  - intros E. cbn in E. rewrite E.
    change (critical r) with (critical (graded_incorrect r)).
    symmetry. apply set_critical_same.
Qed.

Lemma rows_after_grading_example :
  stored (answered_correctly example_constants 100 101 true) sample_review
  = call (answered_correctly example_constants 100 101 true) sample_review /\
  exists r' saved,
    call (answered_incorrectly example_constants) sample_review = Ok r' /\
    stored (answered_incorrectly example_constants) sample_review = Ok saved /\
    saved = set_critical (critical sample_review) r' /\
    (saved = r' <-> critical r' = critical sample_review).
Proof.
  apply (rows_after_grading example_constants 100 101 true sample_review).
  - cbn. lia.
  - cbn. lia.
Defined.

(** ** Reset *)

(** X10: [reset] does not touch [critical].  With a minimum attempt count
    of at least 2, a record flagged critical is still flagged after
    [reset], although with one right and no wrong answer it no longer
    meets the criterion. *)
Theorem reset_keeps_the_critical_flag (c : Constants) (now : datetime)
    (r : UserSpecific) :
  2 <= MINIMUM_ATTEMPT_COUNT_FOR_CRITICALITY c ->
  critical r = true ->
  exists r', call (reset now) r = Ok r' /\
             critical r' = true /\
             error_rate_critical c r' = false /\
             ~ critical_as_specified c r'.
Proof.
  intros Hmin Hc. eexists. split; [apply reset_call|]. cbn [critical].
  split; [exact Hc|].
  assert (Hrate : error_rate_critical c
            {| correct := 1; incorrect := 0; streak := 1; last_studied := None;
               needs_review := true; unlock_date := unlock_date r;
               next_review_date := Some now; burned := false;
               critical := critical r |} = false).
  { unfold error_rate_critical, _can_be_critical. cbn [correct incorrect].
    destruct (Z.leb_spec (MINIMUM_ATTEMPT_COUNT_FOR_CRITICALITY c) (1 + 0)); [lia|].
    reflexivity. }
  split; [exact Hrate|].
  unfold critical_as_specified. cbn [critical correct incorrect].
  intros [Hspec _]. apply Hspec in Hc. lia.
Qed.

Lemma reset_keeps_the_critical_flag_example :
  exists r', call (reset 0) sample_critical = Ok r' /\
             critical r' = true /\
             error_rate_critical example_constants r' = false /\
             ~ critical_as_specified example_constants r'.
Proof.
  apply (reset_keeps_the_critical_flag example_constants 0 sample_critical).
  - cbn. lia.
  - reflexivity.
Defined.

(** X11: [reset] clears [last_studied], and
    [bring_review_out_of_vacation] adds the vacation to [last_studied]
    without testing it: coming back from vacation right after a reset, or
    on a record that was created and never answered, raises [TypeError]. *)
Theorem vacation_after_reset_raises (c : Constants) (now : datetime)
    (d : timedelta) (es : list event) (r : UserSpecific) :
  replay c (Reset now :: OutOfVacation d :: es) r = Raise TypeError /\
  replay c (OutOfVacation d :: es) (create now) = Raise TypeError.
Proof. split; reflexivity. Qed.

(** ** Degenerate configurations *)

Lemma set_criticality_raises (c : Constants) (s : Store) :
  MINIMUM_ATTEMPT_COUNT_FOR_CRITICALITY c <= 0 ->
  correct (obj s) + incorrect (obj s) = 0 ->
  set_criticality c s = Raise ZeroDivisionError.
Proof.
  intros Hmin Hzero.
  unfold set_criticality, is_critical, _can_be_critical, _breaks_threshold,
    bind, self, raise.
  rewrite Hzero.
  destruct (Z.leb_spec (MINIMUM_ATTEMPT_COUNT_FOR_CRITICALITY c) 0); [|lia].
  reflexivity.
Qed.

(** X12: with a minimum attempt count of 0 or less, the first answer to a
    lesson that has no attempts yet raises [ZeroDivisionError]: the error
    rate is computed with no attempt to divide by. *)
Theorem first_answer_divides_by_zero (c : Constants) (n1 n2 : datetime)
    (first_try : bool) (r : UserSpecific) :
  MINIMUM_ATTEMPT_COUNT_FOR_CRITICALITY c <= 0 ->
  REVIEW_ROUNDING_TIME c <> 0 ->
  streak r = 0 ->
  correct r + incorrect r = 0 ->
  call (answered_correctly c n1 n2 first_try) r = Raise ZeroDivisionError.
Proof.
  intros Hmin Hround Hs Hzero.
  unfold call, answered_correctly, bind, self, assign, load; cbn [obj row].
  rewrite Hs. cbn [Z.eqb obj row].
  rewrite set_next_review_time_run by assumption.
  rewrite set_criticality_raises; [reflexivity|assumption|].
  cbn [obj].
  destruct (scheduled_fields c n2
              (set_last_studied (Some n1)
                 (set_needs_review false (set_streak (0 + 1) r))))
    as (Hc & Hi & _).
  rewrite Hc, Hi. exact Hzero.
Qed.

Lemma first_answer_divides_by_zero_example :
  call (answered_correctly constants_without_minimum 10 11 true) (create 0)
  = Raise ZeroDivisionError.
Proof.
  apply (first_answer_divides_by_zero constants_without_minimum 10 11 true (create 0)).
  - cbn. lia.
  - cbn. lia.
  - reflexivity.
  - reflexivity.
Defined.

(** X13: with a rounding time of zero seconds, [set_next_review_time]
    raises [ZeroDivisionError] on every record whose streak has an entry
    in the interval table, and still clears the review date of the others. *)
Theorem zero_rounding_time_raises (c : Constants) (now : datetime)
    (r : UserSpecific) :
  REVIEW_ROUNDING_TIME c = 0 ->
  call (set_next_review_time c now) r =
  match SRS_TIMES c !! streak r with
  | Some _ => Raise ZeroDivisionError
  | None => Ok (set_next_review_date None r)
  end.
Proof.
  intros Hzero.
  unfold call, set_next_review_time, bind, self, load; cbn [obj].
  destruct (SRS_TIMES c !! streak r) as [h|]; [|reflexivity].
  unfold _round_next_review_date, rounded, bind, self, assign, raise;
    cbn [obj row next_review_date set_next_review_date].
  rewrite Hzero. reflexivity.
Qed.

Lemma zero_rounding_time_raises_example :
  call (set_next_review_time constants_without_rounding 100) sample_review =
  match SRS_TIMES constants_without_rounding !! streak sample_review with
  | Some _ => Raise ZeroDivisionError
  | None => Ok (set_next_review_date None sample_review)
  end.
Proof.
  apply (zero_rounding_time_raises constants_without_rounding 100 sample_review).
  reflexivity.
Defined.

(** ** Scheduling from the time of study *)

(** X14: [set_next_review_time_based_on_last_studied] raises [KeyError]
    when the streak has no entry in the interval table, whether or not the
    record has been studied, and [TypeError] when the streak has an entry
    and the record has never been studied.  Otherwise it sets the review
    date to the rounding of [last_studied] plus the interval, and it also
    moves [last_studied] itself forward to its rounding; nothing else
    changes. *)
Theorem scheduling_based_on_last_studied (c : Constants) (r : UserSpecific) :
  REVIEW_ROUNDING_TIME c <> 0 ->
  call (set_next_review_time_based_on_last_studied c) r =
  match SRS_TIMES c !! streak r, last_studied r with
  | None, _ => Raise KeyError
  | Some _, None => Raise TypeError
  | Some h, Some ls =>
      Ok (set_last_studied (Some (round_up c ls))
            (set_next_review_date (Some (round_up c (ls + hours h))) r))
  end.
Proof.
  intros Hround.
  unfold call, set_next_review_time_based_on_last_studied, bind, self, raise, load;
    cbn [obj].
  destruct (SRS_TIMES c !! streak r) as [h|]; [|reflexivity].
  destruct (last_studied r) as [ls|] eqn:Hls; [|reflexivity].
  unfold _round_review_time_up, _round_next_review_date, _round_last_studied_date,
    bind, self, assign, save.
  repeat (cbn [obj row set_next_review_date set_last_studied next_review_date
               last_studied]; rewrite ?rounded_ok, ?Hls by assumption).
  reflexivity.
Qed.

Lemma scheduling_based_on_last_studied_example :
  call (set_next_review_time_based_on_last_studied example_constants) sample_review =
  match SRS_TIMES example_constants !! streak sample_review,
        last_studied sample_review with
  | None, _ => Raise KeyError
  | Some _, None => Raise TypeError
  | Some h, Some ls =>
      Ok (set_last_studied (Some (round_up example_constants ls))
            (set_next_review_date (Some (round_up example_constants (ls + hours h)))
               sample_review))
  end.
Proof.
  apply (scheduling_based_on_last_studied example_constants sample_review).
  cbn. lia.
Defined.

(** ** How the flag moves with the answers *)

(** The comparison of the threshold with the error rate, in integers. *)
Lemma threshold_le_rate (q : Q) (a b : Z) :
  0 < b ->
  (q <= inject_Z a / inject_Z b)%Q <-> Qnum q * b <= a * QDen q.
Proof.
  intros Hb. destruct b as [|p|p]; try lia.
  rewrite <- (Qmake_Qdiv a p). unfold Qle. cbn [Qnum Qden]. reflexivity.
Qed.

Lemma error_rate_critical_integers (c : Constants) (r : UserSpecific) :
  0 < correct r + incorrect r ->
  error_rate_critical c r = true <->
  MINIMUM_ATTEMPT_COUNT_FOR_CRITICALITY c <= correct r + incorrect r /\
  Qnum (CRITICALITY_THRESHOLD c) * (correct r + incorrect r)
  <= incorrect r * QDen (CRITICALITY_THRESHOLD c).
Proof.
  intros Hpos. rewrite error_rate_critical_iff, threshold_le_rate by assumption.
  reflexivity.
Qed.

(** X15: a wrong answer never clears the flag of a record that meets the
    criterion: if the counters of a record with a non-negative [correct]
    meet it before [answered_incorrectly], the record returned is
    critical. *)
Theorem wrong_answer_keeps_critical (c : Constants) (r : UserSpecific) :
  1 <= MINIMUM_ATTEMPT_COUNT_FOR_CRITICALITY c ->
  0 <= correct r ->
  error_rate_critical c r = true ->
  exists r', call (answered_incorrectly c) r = Ok r' /\ critical r' = true.
Proof.
  intros Hmin Hc Hcrit. eexists. split; [now apply answered_incorrectly_call|].
  cbn [critical set_critical].
  pose proof Hcrit as Hcan.
  unfold error_rate_critical, _can_be_critical in Hcan.
  apply andb_true_iff in Hcan as [Hcan _]. apply Z.leb_le in Hcan.
  apply error_rate_critical_integers in Hcrit as [_ Hrate]; [|lia].
  apply error_rate_critical_integers; cbn [correct incorrect graded_incorrect
    set_streak set_incorrect]; [lia|].
  split; [lia|].
  set (n := Qnum (CRITICALITY_THRESHOLD c)) in *.
  set (dn := QDen (CRITICALITY_THRESHOLD c)) in *.
  assert (Hdn : 0 < dn) by (unfold dn; lia).
  destruct (Z_le_gt_dec n dn) as [Hle|Hgt]; [lia|].
  assert (incorrect r * dn <= (correct r + incorrect r) * dn) by nia.
  assert ((correct r + incorrect r) * dn < n * (correct r + incorrect r)) by nia.
  lia.
Qed.

Lemma wrong_answer_keeps_critical_example :
  exists r', call (answered_incorrectly example_constants) sample_critical = Ok r' /\
             critical r' = true.
Proof.
  apply (wrong_answer_keeps_critical example_constants sample_critical).
  - cbn. lia.
  - cbn. lia.
  - vm_compute. reflexivity.
Defined.

(** X16: with a positive threshold, a record without wrong answers is not
    critical after a correct answer, however many attempts it has. *)
Theorem no_wrong_answer_no_flag (c : Constants) (n1 n2 : datetime)
    (first_try : bool) (r : UserSpecific) :
  1 <= MINIMUM_ATTEMPT_COUNT_FOR_CRITICALITY c ->
  REVIEW_ROUNDING_TIME c <> 0 ->
  (0 < CRITICALITY_THRESHOLD c)%Q ->
  incorrect r = 0 ->
  exists r', call (answered_correctly c n1 n2 first_try) r = Ok r' /\
             critical r' = false.
Proof.
  intros Hmin Hround Hth Hi. eexists. split; [now apply answered_correctly_call|].
  cbn [critical set_critical].
  set (r2 := scheduled c n2 (graded_correct c n1 first_try r)).
  destruct (error_rate_critical c r2) eqn:E; [|reflexivity]. exfalso.
  pose proof E as Hcan. unfold error_rate_critical, _can_be_critical in Hcan.
  apply andb_true_iff in Hcan as [Hcan _]. apply Z.leb_le in Hcan.
  apply error_rate_critical_integers in E as [_ Hrate]; [|lia].
  destruct (scheduled_fields c n2 (graded_correct c n1 first_try r))
    as (_ & Hi2 & _).
  destruct (graded_correct_counters c n1 first_try r) as [_ Hi1].
  fold r2 in Hi2. rewrite Hi2, Hi1, Hi in Hrate.
  unfold Qlt in Hth. cbn in Hth. nia.
Qed.

Lemma no_wrong_answer_no_flag_example :
  exists r', call (answered_correctly example_constants 100 101 true) sample_burned = Ok r' /\
             critical r' = false.
Proof.
  apply (no_wrong_answer_no_flag example_constants 100 101 true sample_burned).
  - cbn. lia.
  - cbn. lia.
  - reflexivity.
  - reflexivity.
Defined.

(** ** The setters of the profile *)

(** X17: whatever the regular expression, [set_twitter_account] leaves the
    [twitter] field either as it was or holding a handle that starts with
    "@" and whose rest matches the expression; it never touches [website].
    Called with [None] or the empty string it returns at once and saves
    nothing; otherwise it saves, also when the account was rejected. *)
Theorem twitter_handle_starts_with_at (matches : string -> bool)
    (account : option string) (s : Profile.Store) :
  let s' := Profile.set_twitter_account matches account s in
  (Profile.twitter (Profile.obj s') = Profile.twitter (Profile.obj s) \/
   exists name, Profile.twitter (Profile.obj s') = Some (String "@" name) /\
                matches name = true) /\
  Profile.website (Profile.obj s') = Profile.website (Profile.obj s) /\
  (Profile.truthy account = false -> s' = s) /\
  (Profile.truthy account = true -> Profile.row s' = Profile.obj s').
Proof.
  destruct account as [[|a rest]|]; cbn -[Profile.startswith_at].
  - repeat split; auto; discriminate.
  - destruct (Profile.startswith_at (String a rest)) eqn:Hat; cbn [andb].
    + destruct (matches rest) eqn:Hm.
      * cbn. split; [|repeat split; discriminate].
        right. exists rest. split; [|assumption].
        unfold Profile.startswith_at in Hat. apply Ascii.eqb_eq in Hat. now subst.
      * destruct (matches (String a rest)) eqn:Hm'; cbn.
        -- split; [|repeat split; discriminate].
           right. now exists (String a rest).
        -- repeat split; auto; discriminate.
    + destruct (matches (String a rest)) eqn:Hm'; cbn.
      * split; [|repeat split; discriminate].
        right. now exists (String a rest).
      * repeat split; auto; discriminate.
  - repeat split; auto; discriminate.
Qed.

(** X18: a name that matches the expression and does not start with "@" is
    stored the same way whether it is passed with or without the leading
    "@". *)
Theorem twitter_handle_with_or_without_at (matches : string -> bool)
    (name : string) (s : Profile.Store) :
  matches name = true ->
  Profile.startswith_at name = false ->
  name <> EmptyString ->
  Profile.set_twitter_account matches (Some name) s
  = Profile.set_twitter_account matches (Some (String "@" name)) s /\
  Profile.twitter (Profile.obj (Profile.set_twitter_account matches (Some name) s))
  = Some (String "@" name).
Proof.
  intros Hm Hat Hne. destruct name as [|a rest]; [contradiction|].
  unfold Profile.set_twitter_account.
  rewrite Hat. cbn [andb]. rewrite Hm.
  cbn [Profile.startswith_at Profile.tail]. rewrite Ascii.eqb_refl. cbn [andb].
  rewrite Hm. split; reflexivity.
Qed.

Lemma twitter_handle_with_or_without_at_example :
  Profile.set_twitter_account (fun _ => true) (Some "koichi"%string)
    {| Profile.obj := {| Profile.twitter := None; Profile.website := None |};
       Profile.row := {| Profile.twitter := None; Profile.website := None |} |}
  = Profile.set_twitter_account (fun _ => true) (Some "@koichi"%string)
      {| Profile.obj := {| Profile.twitter := None; Profile.website := None |};
         Profile.row := {| Profile.twitter := None; Profile.website := None |} |} /\
  Profile.twitter
    (Profile.obj
       (Profile.set_twitter_account (fun _ => true) (Some "koichi"%string)
          {| Profile.obj := {| Profile.twitter := None; Profile.website := None |};
             Profile.row := {| Profile.twitter := None; Profile.website := None |} |}))
  = Some "@koichi"%string.
Proof.
  apply (twitter_handle_with_or_without_at (fun _ => true) "koichi"%string).
  - reflexivity.
  - reflexivity.
  - discriminate.
Defined.

(** X19: [set_website] never stores an empty website: it changes the field
    and saves only when both the address passed and what is left of it
    after the scheme is removed are non-empty, and then stores what is
    left; in every other case the profile is returned as it was, unsaved. *)
Theorem website_is_never_emptied (strip : string -> string)
    (website_url : option string) (s : Profile.Store) :
  let s' := Profile.set_website strip website_url s in
  Profile.twitter (Profile.obj s') = Profile.twitter (Profile.obj s) /\
  (s' = s \/
   exists url, website_url = Some url /\ url <> EmptyString /\
               strip url <> EmptyString /\
               Profile.website (Profile.obj s') = Some (strip url) /\
               Profile.row s' = Profile.obj s') /\
  (Profile.website (Profile.obj s) <> Some EmptyString ->
   Profile.website (Profile.obj s') <> Some EmptyString).
Proof.
  destruct website_url as [[|a rest]|]; cbn.
  - split; [reflexivity|]. split; [now left|auto].
  - destruct (strip (String a rest)) as [|b fixed] eqn:Hstrip; cbn.
    + split; [reflexivity|]. split; [now left|auto].
    + split; [reflexivity|]. split.
      * right. exists (String a rest). rewrite Hstrip.
        repeat split; discriminate.
      * intros _. discriminate.
  - split; [reflexivity|]. split; [now left|auto].
Qed.

(** ** Runs of answers *)

Section Runs.

Variable c : Constants.

Hypothesis attempts_positive : 1 <= MINIMUM_ATTEMPT_COUNT_FOR_CRITICALITY c.
Hypothesis granularity_nonzero : REVIEW_ROUNDING_TIME c <> 0.

Lemma first_try_run (es : list event) (r r' : UserSpecific) :
  all_first_try es = true ->
  1 <= streak r ->
  replay c es r = Ok r' ->
  streak r' = streak r + Z.of_nat (length es) /\
  correct r' = correct r + Z.of_nat (length es) /\
  incorrect r' = incorrect r /\
  burned r' = burned r
              || ((1 <=? Z.of_nat (length es))
                  && (BURNED_STREAK c <=? streak r + Z.of_nat (length es))).
Proof.
  revert r. induction es as [|e es IH]; intros r Hall Hs Hrun.
  - injection Hrun as <-. cbn. rewrite orb_false_r. repeat split; lia.
  - cbn [replay] in Hrun. destruct (apply c e r) as [r1|x] eqn:He; [|discriminate].
    apply apply_outcome in He; try assumption.
    destruct e as [n1 n2 [|]| |now|d]; cbn in Hall; try discriminate.
    destruct He as (Hb1 & Hs1 & Hc1 & Hi1).
    destruct (Z.eqb_spec (streak r) 0) as [|_]; [lia|].
    cbn [negb andb] in Hb1.
    destruct (IH r1 Hall ltac:(lia) Hrun) as (Hs' & Hc' & Hi' & Hb').
    rewrite Hs', Hc', Hi', Hb', Hs1, Hc1, Hi1, Hb1.
    rewrite length_cons, Nat2Z.inj_succ.
    repeat split; try lia.
    destruct (burned r); [reflexivity|]. cbn [orb].
    destruct (Z.leb_spec (BURNED_STREAK c) (streak r + 1)),
             (Z.leb_spec 1 (Z.of_nat (length es))),
             (Z.leb_spec (BURNED_STREAK c) (streak r + 1 + Z.of_nat (length es))),
             (Z.leb_spec 1 (Z.succ (Z.of_nat (length es)))),
             (Z.leb_spec (BURNED_STREAK c) (streak r + Z.succ (Z.of_nat (length es))));
      cbn; try reflexivity; lia.
Qed.

End Runs.

(** X20: a run of first-try correct answers on a record in the lesson
    state: after [k >= 1] of them the streak is [k] and [correct] has grown
    by [k - 1], the first answer not being counted; the record has become
    burned exactly when [k >= 2] and [k] has reached the burn stage, the
    answer that ends the lesson never burning. *)
Theorem first_try_run_from_lesson (c : Constants) (e : event) (es : list event)
    (r r' : UserSpecific) :
  1 <= MINIMUM_ATTEMPT_COUNT_FOR_CRITICALITY c ->
  REVIEW_ROUNDING_TIME c <> 0 ->
  streak r = 0 ->
  all_first_try (e :: es) = true ->
  replay c (e :: es) r = Ok r' ->
  let k := Z.of_nat (length (e :: es)) in
  streak r' = k /\
  correct r' = correct r + (k - 1) /\
  incorrect r' = incorrect r /\
  burned r' = burned r || ((2 <=? k) && (BURNED_STREAK c <=? k)).
Proof.
  intros Hmin Hround Hs Hall Hrun k. unfold k. clear k.
  cbn [replay] in Hrun. destruct (apply c e r) as [r1|x] eqn:He; [|discriminate].
  apply apply_outcome in He; try assumption.
  destruct e as [n1 n2 [|]| |now|d]; cbn in Hall; try discriminate.
  destruct He as (Hb1 & Hs1 & Hc1 & Hi1).
  rewrite Hs in Hb1, Hs1, Hc1. cbn in Hb1, Hs1, Hc1. rewrite orb_false_r in Hb1.
  destruct (first_try_run c Hmin Hround es r1 r' Hall ltac:(lia) Hrun)
    as (Hs' & Hc' & Hi' & Hb').
  rewrite Hs', Hc', Hi', Hb', Hs1, Hc1, Hi1, Hb1.
  rewrite length_cons, Nat2Z.inj_succ.
  repeat split; try lia.
  replace (Z.succ (Z.of_nat (length es))) with (1 + Z.of_nat (length es)) by lia.
  f_equal. f_equal.
  destruct (Z.leb_spec 1 (Z.of_nat (length es))),
           (Z.leb_spec 2 (1 + Z.of_nat (length es)));
    try reflexivity; lia.
Qed.

Lemma first_try_run_from_lesson_example :
  let k := Z.of_nat (length [AnsweredCorrectly 10 11 true; AnsweredCorrectly 20 21 true]) in
  streak {| correct := 1; incorrect := 0; streak := 2; last_studied := Some 20;
            needs_review := false; unlock_date := 0;
            next_review_date := Some 32400000021; burned := false;
            critical := false |} = k /\
  correct {| correct := 1; incorrect := 0; streak := 2; last_studied := Some 20;
             needs_review := false; unlock_date := 0;
             next_review_date := Some 32400000021; burned := false;
             critical := false |} = correct (create 0) + (k - 1) /\
  incorrect {| correct := 1; incorrect := 0; streak := 2; last_studied := Some 20;
               needs_review := false; unlock_date := 0;
               next_review_date := Some 32400000021; burned := false;
               critical := false |} = incorrect (create 0) /\
  burned {| correct := 1; incorrect := 0; streak := 2; last_studied := Some 20;
            needs_review := false; unlock_date := 0;
            next_review_date := Some 32400000021; burned := false;
            critical := false |}
  = burned (create 0) || ((2 <=? k) && (BURNED_STREAK example_constants <=? k)).
Proof.
  apply (first_try_run_from_lesson example_constants
           (AnsweredCorrectly 10 11 true) [AnsweredCorrectly 20 21 true] (create 0)).
  - cbn. lia.
  - cbn. lia.
  - reflexivity.
  - reflexivity.
  - vm_compute. reflexivity.
Defined.

(** X21: a wrong answer followed by a first-try correct one, on a record
    outside the lesson state, brings the streak back to where it was,
    except from stage 7, where it ends at 6, and from stage 1, where it
    ends at 2; both counters have grown by 1. *)
Theorem wrong_then_right (c : Constants) (n1 n2 : datetime) (r r' : UserSpecific) :
  1 <= MINIMUM_ATTEMPT_COUNT_FOR_CRITICALITY c ->
  REVIEW_ROUNDING_TIME c <> 0 ->
  1 <= streak r ->
  replay c [AnsweredIncorrectly; AnsweredCorrectly n1 n2 true] r = Ok r' ->
  streak r' = (if streak r =? 7 then 6 else if streak r =? 1 then 2 else streak r) /\
  correct r' = correct r + 1 /\
  incorrect r' = incorrect r + 1.
Proof.
  intros Hmin Hround Hs Hrun.
  cbn [replay] in Hrun.
  destruct (apply c AnsweredIncorrectly r) as [r1|x] eqn:He1; [|discriminate].
  destruct (apply c (AnsweredCorrectly n1 n2 true) r1) as [r2|x] eqn:He2; [|discriminate].
  injection Hrun as <-.
  apply apply_outcome in He1; try assumption.
  apply apply_outcome in He2; try assumption.
  destruct He1 as (_ & Hs1 & Hc1 & Hi1). destruct He2 as (_ & Hs2 & Hc2 & Hi2).
  pose proof (streak_after_incorrect_bounds (streak r)) as [Hb _].
  specialize (Hb Hs). rewrite <- Hs1 in Hb.
  destruct (Z.eqb_spec (streak r1) 0) as [|_]; [lia|].
  rewrite Hs2, Hc2, Hi2, Hs1, Hc1, Hi1. unfold streak_after_incorrect.
  destruct (Z.eqb_spec (streak r) 7), (Z.eqb_spec (streak r) 1),
           (Z.ltb_spec 1 (streak r)); repeat split; lia.
Qed.

Lemma wrong_then_right_example :
  streak {| correct := 5; incorrect := 2; streak := 3; last_studied := Some 100;
            needs_review := false; unlock_date := 0;
            next_review_date := Some 90000000101; burned := false;
            critical := false |}
  = (if streak sample_review =? 7 then 6
     else if streak sample_review =? 1 then 2 else streak sample_review) /\
  correct {| correct := 5; incorrect := 2; streak := 3; last_studied := Some 100;
             needs_review := false; unlock_date := 0;
             next_review_date := Some 90000000101; burned := false;
             critical := false |} = correct sample_review + 1 /\
  incorrect {| correct := 5; incorrect := 2; streak := 3; last_studied := Some 100;
               needs_review := false; unlock_date := 0;
               next_review_date := Some 90000000101; burned := false;
               critical := false |} = incorrect sample_review + 1.
Proof.
  apply (wrong_then_right example_constants 100 101 sample_review).
  - cbn. lia.
  - cbn. lia.
  - cbn. lia.
  - vm_compute. reflexivity.
Defined.
